(** * SparkleCarrot schema validator (schema_validator.py)

    A shallow embedding of the rule-based validator: the issue model, the
    six validation rules, the [SchemaValidator] that runs them over a stage
    and the command-line entry point, followed by the properties the
    specification states about them.

    The USD scene graph (module [pxr]) is an external collaborator.  It is
    represented by plain records holding what the validator reads from it:
    a stage is the sequence of prims its traversal yields, a prim carries
    its path, applied schemas, attributes and relationships. *)

From Stdlib Require Import String Ascii List Bool Arith Lia.
From Stdlib Require Import ZArith Floats DecimalString.
Import ListNotations.

Set Warnings "-register-all".

Local Open Scope list_scope.
Local Open Scope string_scope.

(* ================================================================== *)
(** ** Regular expressions, as far as [re.compile] is used here        *)
(* ================================================================== *)

Module Re.

(** Abstract syntax of the fragment of Python's pattern language that
    the namespace rule uses: literal characters, bracketed character
    classes made of ranges, concatenation, and the postfix operators
    [*] and [+].  [Void] and [Alt] only arise as derivatives. *)
Inductive regex : Type :=
| Void
| Eps
| Chr (c : ascii)
| Class (ranges : list (ascii * ascii))
| Seq (r s : regex)
| Alt (r s : regex)
| Star (r : regex).

Definition Plus (r : regex) : regex := Seq r (Star r).

(** A literal string is the concatenation of its characters. *)
Fixpoint Str (s : string) : regex :=
  match s with
  | EmptyString => Eps
  | String c s' => Seq (Chr c) (Str s')
  end.

Definition in_range (c : ascii) (r : ascii * ascii) : bool :=
  Nat.leb (nat_of_ascii (fst r)) (nat_of_ascii c) &&
  Nat.leb (nat_of_ascii c) (nat_of_ascii (snd r)).

Definition in_class (ranges : list (ascii * ascii)) (c : ascii) : bool :=
  existsb (in_range c) ranges.

Fixpoint nullable (r : regex) : bool :=
  match r with
  | Void => false
  | Eps => true
  | Chr _ => false
  | Class _ => false
  | Seq r s => nullable r && nullable s
  | Alt r s => nullable r || nullable s
  | Star _ => true
  end.

Fixpoint deriv (c : ascii) (r : regex) : regex :=
  match r with
  | Void => Void
  | Eps => Void
  | Chr d => if Ascii.eqb c d then Eps else Void
  | Class rs => if in_class rs c then Eps else Void
  | Seq r s =>
      if nullable r
      then Alt (Seq (deriv c r) s) (deriv c s)
      else Seq (deriv c r) s
  | Alt r s => Alt (deriv c r) (deriv c s)
  | Star r => Seq (deriv c r) (Star r)
  end.

(** [fullmatch r s]: the whole of [s] is a word of [r]. *)
Fixpoint fullmatch (r : regex) (s : string) : bool :=
  match s with
  | EmptyString => nullable r
  | String c s' => fullmatch (deriv c r) s'
  end.

(** A newline that is the last character of the subject, removed. *)
Fixpoint strip_final_newline (s : string) : option string :=
  match s with
  | EmptyString => None
  | String c EmptyString =>
      if Ascii.eqb c "010"%char then Some EmptyString else None
  | String c s' =>
      match strip_final_newline s' with
      | Some t => Some (String c t)
      | None => None
      end
  end.

(** [match_anchored body s] is [re.compile('^' body '$').match(s)] taken
    as a truth value.  [match] anchors at the start of the subject, so
    the leading [^] adds nothing; without the MULTILINE flag [$] holds
    at the end of the subject and also just before a newline that is
    its last character. *)
Definition match_anchored (body : regex) (s : string) : bool :=
  fullmatch body s ||
  match strip_final_newline s with
  | Some t => fullmatch body t
  | None => false
  end.

(** The denotation the matcher is proved against. *)
Inductive lang : regex -> string -> Prop :=
| L_Eps : lang Eps ""
| L_Chr c : lang (Chr c) (String c "")
| L_Class rs c : in_class rs c = true -> lang (Class rs) (String c "")
| L_Seq r s u v : lang r u -> lang s v -> lang (Seq r s) (u ++ v)
| L_AltL r s u : lang r u -> lang (Alt r s) u
| L_AltR r s u : lang s u -> lang (Alt r s) u
| L_StarNil r : lang (Star r) ""
| L_StarCons r u v : lang r u -> lang (Star r) v -> lang (Star r) (u ++ v).

End Re.

(* ================================================================== *)
(** ** The scene graph as the validator sees it                        *)
(* ================================================================== *)

(** What an attribute holds.  [VtOther] stands for every value that is
    neither a floating-point number nor a token. *)
Inductive VtValue : Type :=
| VtFloat (f : float)
| VtToken (t : string)
| VtOther (repr : string).

Record UsdAttribute : Type := {
  GetName : string;
  GetTypeName : string;          (* an Sdf.ValueTypeNames entry, by name *)
  attr_value : option VtValue    (* [None]: the attribute has no value *)
}.

Record UsdRelationship : Type := {
  rel_name : string;
  rel_targets : list string
}.

Record UsdPrim : Type := {
  GetPath : string;
  IsValid : bool;
  IsAbstract : bool;
  type_lineage : list string;    (* declared type, then its base types *)
  GetAppliedSchemas : list string;
  GetAttributes : list UsdAttribute;
  GetRelationships : list UsdRelationship
}.

Record UsdStage : Type := {
  Traverse : list UsdPrim        (* prims in traversal order *)
}.

(** [prim.GetAttribute(name)]: a handle that is truthy exactly when the
    prim has the attribute. *)
Definition GetAttribute (prim : UsdPrim) (name : string) : option UsdAttribute :=
  find (fun a => String.eqb (GetName a) name) (GetAttributes prim).

Definition GetRelationship (prim : UsdPrim) (name : string) : option UsdRelationship :=
  find (fun r => String.eqb (rel_name r) name) (GetRelationships prim).

(** [prim.IsA(Tf.Type.FindByName(t))]. *)
Definition IsA (prim : UsdPrim) (t : string) : bool :=
  existsb (String.eqb t) (type_lineage prim).

(** [attr.Get(&value)] with [value] initialised to [0.0].  The source
    writes the read with an out-parameter, whose initial value fixes the
    type asked for: the read succeeds, and fills [value], when the
    attribute has a floating-point value, and fails otherwise. *)
Definition Get_float (a : UsdAttribute) : option float :=
  match attr_value a with
  | Some (VtFloat f) => Some f
  | _ => None
  end.

(** [attr.Get(&value)] with [value] initialised to [Tf.Token()]. *)
Definition Get_token (a : UsdAttribute) : option string :=
  match attr_value a with
  | Some (VtToken t) => Some t
  | _ => None
  end.

(** Python's [x in xs] on a list of strings. *)
Definition str_in (x : string) (xs : list string) : bool :=
  existsb (String.eqb x) xs.

Module ValueTypeNames.
Definition Float : string := "float".
Definition Matrix4d : string := "matrix4d".
Definition String : string := "string".
End ValueTypeNames.

(** How Python renders a float inside an f-string is the interpreter's
    business; the validator is parametric in it. *)
Class PyFormat : Type := {
  format_float : float -> string
}.

(** [str(n)] for a non-negative integer. *)
Definition format_nat (n : nat) : string :=
  NilEmpty.string_of_uint (Nat.to_uint n).

(** [sep.join(xs)]. *)
Fixpoint join (sep : string) (xs : list string) : string :=
  match xs with
  | [] => ""
  | [x] => x
  | x :: rest => x ++ sep ++ join sep rest
  end.

(* ================================================================== *)
(** ** Issue model                                                     *)
(* ================================================================== *)

Inductive ValidationSeverity : Type := ERROR | WARNING | INFO.

Module Severity.
(** The enumeration's members compare by identity. *)
Definition eqb (a b : ValidationSeverity) : bool :=
  match a, b with
  | ERROR, ERROR | WARNING, WARNING | INFO, INFO => true
  | _, _ => false
  end.

(** [severity.name]. *)
Definition name (s : ValidationSeverity) : string :=
  match s with
  | ERROR => "ERROR"
  | WARNING => "WARNING"
  | INFO => "INFO"
  end.
End Severity.

Record ValidationIssue : Type := {
  path : string;
  message : string;
  severity : ValidationSeverity;
  rule_id : string;
  fix_description : option string
}.

Module Issue.
(** [ValidationIssue.__str__]. *)
Definition __str__ (i : ValidationIssue) : string :=
  let severity_str := Severity.name (severity i) in
  let result :=
    severity_str ++ " [" ++ rule_id i ++ "] at " ++ path i ++ ": " ++ message i in
  match fix_description i with
  | Some (String c f) =>
      result ++ String "010" "  Suggested fix: " ++ String c f
  | _ => result
  end.
End Issue.

(** A rule object: its identifier, its description and its [validate]
    method.  The base class's own [validate] only raises; every rule the
    validator registers overrides it. *)
Record ValidationRule : Type := {
  rule_ident : string;
  rule_description : string;
  rule_validate : UsdStage -> UsdPrim -> list ValidationIssue
}.

(* ================================================================== *)
(** ** The six rules                                                   *)
(* ================================================================== *)

Module NamespaceValidationRule.

Definition self_rule_id : string := "SCHEMA_NAMESPACE_001".

Definition letter : Re.regex :=
  Re.Class [("a"%char, "z"%char); ("A"%char, "Z"%char)].

Definition word_char : Re.regex :=
  Re.Class [("a"%char, "z"%char); ("A"%char, "Z"%char);
            ("0"%char, "9"%char); ("_"%char, "_"%char)].

(** The body of [r'^sparkle:[a-zA-Z]+:[a-zA-Z][a-zA-Z0-9_]*$']. *)
Definition namespace_body : Re.regex :=
  Re.Seq (Re.Str "sparkle:")
    (Re.Seq (Re.Plus letter)
       (Re.Seq (Re.Chr ":")
          (Re.Seq letter (Re.Star word_char)))).

(** [self.namespace_pattern.match(name)], as a truth value. *)
Definition namespace_pattern_match (name : string) : bool :=
  Re.match_anchored namespace_body name.

Definition issue_for (prim : UsdPrim) (name : string) : ValidationIssue :=
  {| path := GetPath prim;
     message := "Attribute '" ++ name ++ "' does not follow namespace convention";
     severity := ERROR;
     rule_id := self_rule_id;
     fix_description := Some "Rename to follow pattern 'sparkle:category:name'" |}.

(** One turn of the loop over [prim.GetAttributes()]. *)
Definition check_attr (prim : UsdPrim) (attr : UsdAttribute) : list ValidationIssue :=
  let name := GetName attr in
  if negb (String.prefix "sparkle:" name) then []
  else if negb (namespace_pattern_match name) then [issue_for prim name]
  else [].

Definition validate (stage : UsdStage) (prim : UsdPrim) : list ValidationIssue :=
  flat_map (check_attr prim) (GetAttributes prim).

Definition rule : ValidationRule :=
  {| rule_ident := self_rule_id;
     rule_description :=
       "Property names should follow the namespace convention 'sparkle:category:name'";
     rule_validate := validate |}.

End NamespaceValidationRule.

Module HealthComponentValidationRule.

Definition self_rule_id : string := "HEALTH_COMP_001".

(** An entry of [required_attrs]: the expected type and, when the key
    ["min"] is present, the minimum. *)
Record requirements : Type := {
  req_type : string;
  req_min : option float
}.

Definition required_attrs : list (string * requirements) :=
  [ ("sparkle:health:current",
      {| req_type := ValueTypeNames.Float; req_min := Some 0%float |});
    ("sparkle:health:maximum",
      {| req_type := ValueTypeNames.Float; req_min := Some 0%float |}) ].

Definition missing_issue (prim : UsdPrim) (attr_name : string) : ValidationIssue :=
  {| path := GetPath prim;
     message := "Health component missing required attribute '" ++ attr_name ++ "'";
     severity := ERROR;
     rule_id := self_rule_id;
     fix_description := Some ("Add attribute '" ++ attr_name ++ "' with appropriate value") |}.

Definition type_issue (prim : UsdPrim) (attr_name : string)
    (attr : UsdAttribute) (req : requirements) : ValidationIssue :=
  {| path := GetPath prim;
     message := "Attribute '" ++ attr_name ++ "' has incorrect type '"
                ++ GetTypeName attr ++ "', expected '" ++ req_type req ++ "'";
     severity := ERROR;
     rule_id := self_rule_id;
     fix_description := Some ("Change attribute type to '" ++ req_type req ++ "'") |}.

Definition min_issue `{PyFormat} (prim : UsdPrim) (attr_name : string)
    (value min : float) : ValidationIssue :=
  {| path := GetPath prim;
     message := "Attribute '" ++ attr_name ++ "' value " ++ format_float value
                ++ " is less than minimum " ++ format_float min;
     severity := ERROR;
     rule_id := self_rule_id;
     fix_description := Some ("Set value to at least " ++ format_float min) |}.

Definition exceeds_issue `{PyFormat} (prim : UsdPrim)
    (current_value max_value : float) : ValidationIssue :=
  {| path := GetPath prim;
     message := "Current health (" ++ format_float current_value
                ++ ") exceeds maximum health (" ++ format_float max_value ++ ")";
     severity := ERROR;
     rule_id := self_rule_id;
     fix_description :=
       Some "Reduce current health to be less than or equal to maximum health" |}.

(** "Check attribute type". *)
Definition check_type (prim : UsdPrim) (attr_name : string)
    (req : requirements) (attr : UsdAttribute) : list ValidationIssue :=
  if negb (String.eqb (GetTypeName attr) (req_type req))
  then [type_issue prim attr_name attr req]
  else [].

(** "Check value constraints". *)
Definition check_min `{PyFormat} (prim : UsdPrim) (attr_name : string)
    (req : requirements) (attr : UsdAttribute) : list ValidationIssue :=
  match req_min req with
  | Some min =>
      match Get_float attr with
      | Some value =>
          if PrimFloat.ltb value min
          then [min_issue prim attr_name value min]
          else []
      | None => []
      end
  | None => []
  end.

(** One turn of the loop over [required_attrs.items()]. *)
Definition check_required `{PyFormat} (prim : UsdPrim)
    (entry : string * requirements) : list ValidationIssue :=
  let (attr_name, req) := entry in
  match GetAttribute prim attr_name with
  | None => [missing_issue prim attr_name]
  | Some attr =>
      (check_type prim attr_name req attr ++ check_min prim attr_name req attr)%list
  end.

(** "Check value relationships". *)
Definition check_relationship `{PyFormat} (prim : UsdPrim) : list ValidationIssue :=
  match GetAttribute prim "sparkle:health:current",
        GetAttribute prim "sparkle:health:maximum" with
  | Some current_health, Some max_health =>
      match Get_float current_health, Get_float max_health with
      | Some current_value, Some max_value =>
          if PrimFloat.ltb max_value current_value
          then [exceeds_issue prim current_value max_value]
          else []
      | _, _ => []
      end
  | _, _ => []
  end.

Definition validate `{PyFormat} (stage : UsdStage) (prim : UsdPrim)
    : list ValidationIssue :=
  if negb (str_in "SparkleHealthAPI" (GetAppliedSchemas prim)) then []
  else (flat_map (check_required prim) required_attrs
        ++ check_relationship prim)%list.

Definition rule `{PyFormat} : ValidationRule :=
  {| rule_ident := self_rule_id;
     rule_description :=
       "Health component should have required attributes with valid values";
     rule_validate := validate |}.

End HealthComponentValidationRule.

Module MovementComponentValidationRule.

Definition self_rule_id : string := "MOVEMENT_COMP_001".

Definition allowed_patterns : list string :=
  ["direct"; "patrol"; "wander"; "charge"; "flee"; "stationary"].

Definition speed_missing_issue (prim : UsdPrim) : ValidationIssue :=
  {| path := GetPath prim;
     message := "Movement component missing required attribute 'sparkle:movement:speed'";
     severity := ERROR;
     rule_id := self_rule_id;
     fix_description :=
       Some "Add 'sparkle:movement:speed' attribute with appropriate value" |}.

Definition speed_negative_issue `{PyFormat} (prim : UsdPrim) (speed : float)
    : ValidationIssue :=
  {| path := GetPath prim;
     message := "Movement speed (" ++ format_float speed ++ ") cannot be negative";
     severity := ERROR;
     rule_id := self_rule_id;
     fix_description := Some "Set speed to a non-negative value" |}.

Definition speed_excess_issue `{PyFormat} (prim : UsdPrim) (speed : float)
    : ValidationIssue :=
  {| path := GetPath prim;
     message := "Movement speed (" ++ format_float speed
                ++ ") exceeds maximum reasonable value (100)";
     severity := WARNING;
     rule_id := self_rule_id;
     fix_description :=
       Some "Consider reducing speed unless extreme speed is intentional" |}.

Definition pattern_missing_issue (prim : UsdPrim) : ValidationIssue :=
  {| path := GetPath prim;
     message := "Movement component missing required attribute 'sparkle:movement:pattern'";
     severity := WARNING;
     rule_id := self_rule_id;
     fix_description :=
       Some "Add 'sparkle:movement:pattern' attribute with appropriate value" |}.

Definition pattern_value_issue (prim : UsdPrim) (pattern : string)
    : ValidationIssue :=
  {| path := GetPath prim;
     message := "Movement pattern '" ++ pattern
                ++ "' is not one of the allowed values: "
                ++ join ", " allowed_patterns;
     severity := ERROR;
     rule_id := self_rule_id;
     fix_description := Some ("Set pattern to one of: " ++ join ", " allowed_patterns) |}.

(** "Check speed value": the [else] branch, for an attribute that exists. *)
Definition check_speed_value `{PyFormat} (prim : UsdPrim)
    (speed_attr : UsdAttribute) : list ValidationIssue :=
  match Get_float speed_attr with
  | Some speed =>
      if PrimFloat.ltb speed 0 then [speed_negative_issue prim speed]
      else if PrimFloat.ltb 100 speed then [speed_excess_issue prim speed]
      else []
  | None => []
  end.

(** "Check speed attribute". *)
Definition check_speed `{PyFormat} (prim : UsdPrim) : list ValidationIssue :=
  match GetAttribute prim "sparkle:movement:speed" with
  | None => [speed_missing_issue prim]
  | Some speed_attr => check_speed_value prim speed_attr
  end.

(** "Check pattern value": the [else] branch. *)
Definition check_pattern_value (prim : UsdPrim)
    (pattern_attr : UsdAttribute) : list ValidationIssue :=
  match Get_token pattern_attr with
  | Some pattern =>
      if negb (str_in pattern allowed_patterns)
      then [pattern_value_issue prim pattern]
      else []
  | None => []
  end.

(** "Check pattern attribute". *)
Definition check_pattern (prim : UsdPrim) : list ValidationIssue :=
  match GetAttribute prim "sparkle:movement:pattern" with
  | None => [pattern_missing_issue prim]
  | Some pattern_attr => check_pattern_value prim pattern_attr
  end.

Definition validate `{PyFormat} (stage : UsdStage) (prim : UsdPrim)
    : list ValidationIssue :=
  if negb (str_in "SparkleMovementAPI" (GetAppliedSchemas prim)) then []
  else (check_speed prim ++ check_pattern prim)%list.

Definition rule `{PyFormat} : ValidationRule :=
  {| rule_ident := self_rule_id;
     rule_description :=
       "Movement component should have valid pattern and speed values";
     rule_validate := validate |}.

End MovementComponentValidationRule.

Module AiComponentValidationRule.

Definition self_rule_id : string := "AI_COMP_001".

Definition allowed_behaviors : list string :=
  ["passive"; "defensive"; "aggressive"; "neutral"; "flee"].

Definition behavior_missing_issue (prim : UsdPrim) : ValidationIssue :=
  {| path := GetPath prim;
     message := "AI component missing required attribute 'sparkle:ai:behavior'";
     severity := ERROR;
     rule_id := self_rule_id;
     fix_description :=
       Some "Add 'sparkle:ai:behavior' attribute with appropriate value" |}.

Definition behavior_value_issue (prim : UsdPrim) (behavior : string)
    : ValidationIssue :=
  {| path := GetPath prim;
     message := "AI behavior '" ++ behavior
                ++ "' is not one of the allowed values: "
                ++ join ", " allowed_behaviors;
     severity := ERROR;
     rule_id := self_rule_id;
     fix_description := Some ("Set behavior to one of: " ++ join ", " allowed_behaviors) |}.

Definition radius_issue `{PyFormat} (prim : UsdPrim) (radius : float)
    : ValidationIssue :=
  {| path := GetPath prim;
     message := "AI detection radius (" ++ format_float radius
                ++ ") cannot be negative";
     severity := ERROR;
     rule_id := self_rule_id;
     fix_description := Some "Set detection radius to a non-negative value" |}.

Definition patrol_issue (prim : UsdPrim) (pattern : string) : ValidationIssue :=
  {| path := GetPath prim;
     message := "AI has patrol path but movement pattern is '" ++ pattern
                ++ "' instead of 'patrol'";
     severity := WARNING;
     rule_id := self_rule_id;
     fix_description :=
       Some "Change movement pattern to 'patrol' to match patrol path relationship" |}.

(** "Check behavior attribute". *)
Definition check_behavior (prim : UsdPrim) : list ValidationIssue :=
  match GetAttribute prim "sparkle:ai:behavior" with
  | None => [behavior_missing_issue prim]
  | Some behavior_attr =>
      match Get_token behavior_attr with
      | Some behavior =>
          if negb (str_in behavior allowed_behaviors)
          then [behavior_value_issue prim behavior]
          else []
      | None => []
      end
  end.

(** The body of [if radius_attr:]. *)
Definition check_radius_value `{PyFormat} (prim : UsdPrim)
    (radius_attr : UsdAttribute) : list ValidationIssue :=
  match Get_float radius_attr with
  | Some radius =>
      if PrimFloat.ltb radius 0 then [radius_issue prim radius] else []
  | None => []
  end.

(** "Check detection radius attribute". *)
Definition check_radius `{PyFormat} (prim : UsdPrim) : list ValidationIssue :=
  match GetAttribute prim "sparkle:ai:detectionRadius" with
  | Some radius_attr => check_radius_value prim radius_attr
  | None => []
  end.

(** "Check for patrol path consistency". *)
Definition check_patrol (prim : UsdPrim) : list ValidationIssue :=
  match GetRelationship prim "sparkle:ai:patrolPath" with
  | Some patrol_path_rel =>
      match GetAttribute prim "sparkle:movement:pattern" with
      | Some movement_pattern_attr =>
          match Get_token movement_pattern_attr with
          | Some pattern =>
              if negb (String.eqb pattern "patrol")
              then [patrol_issue prim pattern]
              else []
          | None => []
          end
      | None => []
      end
  | None => []
  end.

Definition validate `{PyFormat} (stage : UsdStage) (prim : UsdPrim)
    : list ValidationIssue :=
  if negb (str_in "SparkleAIAPI" (GetAppliedSchemas prim)) then []
  else (check_behavior prim ++ check_radius prim ++ check_patrol prim)%list.

Definition rule `{PyFormat} : ValidationRule :=
  {| rule_ident := self_rule_id;
     rule_description :=
       "AI component should have valid behavior values and consistent configuration";
     rule_validate := validate |}.

End AiComponentValidationRule.

Module PerformanceValidationRule.

Definition self_rule_id : string := "PERF_001".

Definition mk (prim : UsdPrim) (msg fix_ : string) : ValidationIssue :=
  {| path := GetPath prim;
     message := msg;
     severity := WARNING;
     rule_id := self_rule_id;
     fix_description := Some fix_ |}.

Definition is_expensive (attr : UsdAttribute) : bool :=
  str_in (GetTypeName attr) [ValueTypeNames.Matrix4d; ValueTypeNames.String].

(** The counting loop "Check for expensive data types". *)
Definition expensive_count (attrs : list UsdAttribute) : nat :=
  fold_left (fun n attr => if is_expensive attr then n + 1 else n) attrs 0.

Definition validate (stage : UsdStage) (prim : UsdPrim) : list ValidationIssue :=
  let schemas := GetAppliedSchemas prim in
  let attrs := GetAttributes prim in
  ((if Nat.ltb 10 (length schemas)
    then [mk prim ("Prim has excessive number of API schemas applied ("
                   ++ format_nat (length schemas) ++ ")")
                  "Consider consolidating functionality to reduce schema count"]
    else [])
   ++ (if Nat.ltb 50 (length attrs)
       then [mk prim ("Prim has excessive number of attributes ("
                      ++ format_nat (length attrs) ++ ")")
                     "Consider refactoring to reduce attribute count"]
       else [])
   ++ (if Nat.ltb 10 (expensive_count attrs)
       then [mk prim ("Prim has many attributes with expensive data types ("
                      ++ format_nat (expensive_count attrs) ++ ")")
                     "Consider using more efficient data types where possible"]
       else []))%list.

Definition rule : ValidationRule :=
  {| rule_ident := self_rule_id;
     rule_description := "Schema usage should follow performance best practices";
     rule_validate := validate |}.

End PerformanceValidationRule.

Module EntityTypeValidationRule.

Definition self_rule_id : string := "ENTITY_TYPE_001".

Definition missing_schema_issue (prim : UsdPrim) (kind lower schema : string)
    : ValidationIssue :=
  {| path := GetPath prim;
     message := kind ++ " is missing recommended schema: " ++ schema;
     severity := WARNING;
     rule_id := self_rule_id;
     fix_description := Some ("Apply " ++ schema ++ " to this " ++ lower ++ " entity") |}.

(** The loop over [expected_schemas] shared by the enemy and the player
    checks. *)
Definition check_expected (prim : UsdPrim) (kind lower : string)
    (expected_schemas : list string) : list ValidationIssue :=
  flat_map
    (fun schema =>
       if negb (str_in schema (GetAppliedSchemas prim))
       then [missing_schema_issue prim kind lower schema]
       else [])
    expected_schemas.

Definition _validate_enemy (prim : UsdPrim) : list ValidationIssue :=
  check_expected prim "Enemy" "enemy"
    ["SparkleHealthAPI"; "SparkleCombatAPI"; "SparkleAIAPI"].

Definition _validate_player (prim : UsdPrim) : list ValidationIssue :=
  check_expected prim "Player" "player"
    ["SparkleHealthAPI"; "SparkleMovementAPI"].

Definition _validate_pickup (prim : UsdPrim) : list ValidationIssue :=
  match GetAttribute prim "sparkle:entity:id" with
  | None =>
      [ {| path := GetPath prim;
           message := "Pickup is missing required 'sparkle:entity:id' attribute";
           severity := ERROR;
           rule_id := self_rule_id;
           fix_description := Some "Add 'sparkle:entity:id' attribute with unique ID" |} ]
  | Some _ => []
  end.

Definition validate (stage : UsdStage) (prim : UsdPrim) : list ValidationIssue :=
  if IsA prim "SparkleEnemyCarrot" then _validate_enemy prim
  else if IsA prim "SparklePlayer" then _validate_player prim
  else if IsA prim "SparklePickup" then _validate_pickup prim
  else [].

Definition rule : ValidationRule :=
  {| rule_ident := self_rule_id;
     rule_description := "Entity types should have appropriate API schemas";
     rule_validate := validate |}.

End EntityTypeValidationRule.

(* ================================================================== *)
(** ** The validator                                                   *)
(* ================================================================== *)

(** The dictionary [issue_counts]: its keys are the three severities, from
    construction on, so it is a record of three counters. *)
Record IssueCounts : Type := {
  count_error : nat;
  count_warning : nat;
  count_info : nat
}.

Module Counts.
Definition zero : IssueCounts :=
  {| count_error := 0; count_warning := 0; count_info := 0 |}.

(** [issue_counts[s]]. *)
Definition get (c : IssueCounts) (s : ValidationSeverity) : nat :=
  match s with
  | ERROR => count_error c
  | WARNING => count_warning c
  | INFO => count_info c
  end.

(** [issue_counts[s] += 1]. *)
Definition incr (c : IssueCounts) (s : ValidationSeverity) : IssueCounts :=
  match s with
  | ERROR => {| count_error := count_error c + 1;
                count_warning := count_warning c;
                count_info := count_info c |}
  | WARNING => {| count_error := count_error c;
                  count_warning := count_warning c + 1;
                  count_info := count_info c |}
  | INFO => {| count_error := count_error c;
               count_warning := count_warning c;
               count_info := count_info c + 1 |}
  end.
End Counts.

(** How a call ends: it returns a value, or an exception leaves it. *)
Inductive outcome (A : Type) : Type :=
| Returned (a : A)
| Raised (exception : string).

Arguments Returned {A} a.
Arguments Raised {A} exception.

(** JSON values, as far as the report needs them. *)
Inductive json : Type :=
| JNull
| JInt (n : nat)
| JStr (s : string)
| JArr (items : list json)
| JObj (fields : list (string * json)).

Module SchemaValidator.

(** The instance's attributes. *)
Record self : Type := {
  rules : list ValidationRule;
  all_issues : list ValidationIssue;
  issue_counts : IssueCounts
}.

Definition __init__ `{PyFormat} : self :=
  {| rules := [ NamespaceValidationRule.rule;
                HealthComponentValidationRule.rule;
                MovementComponentValidationRule.rule;
                AiComponentValidationRule.rule;
                PerformanceValidationRule.rule;
                EntityTypeValidationRule.rule ];
     all_issues := [];
     issue_counts := Counts.zero |}.

(** The body of [for rule in self.rules], for one rule. *)
Definition apply_rule (stage : UsdStage) (prim : UsdPrim)
    (v : self) (rule : ValidationRule) : self :=
  let issues := rule_validate rule stage prim in
  match issues with
  | [] => v
  | _ :: _ =>
      {| rules := rules v;
         all_issues := (all_issues v ++ issues)%list;
         issue_counts :=
           fold_left (fun c issue => Counts.incr c (severity issue))
                     issues (issue_counts v) |}
  end.

Definition _validate_prim (stage : UsdStage) (prim : UsdPrim) (v : self) : self :=
  fold_left (apply_rule stage prim) (rules v) v.

(** The state with its issue trackers reset. *)
Definition reset (v : self) : self :=
  {| rules := rules v; all_issues := []; issue_counts := Counts.zero |}.

(** The body of [for prim in stage.Traverse()]. *)
Definition visit (stage : UsdStage) (acc : self) (prim : UsdPrim) : self :=
  if IsValid prim && negb (IsAbstract prim)
  then _validate_prim stage prim acc
  else acc.

(** [validate_stage]: the new state of the instance and the list the
    method returns. *)
Definition validate_stage (stage : UsdStage) (v : self)
    : self * list ValidationIssue :=
  let v' := fold_left (visit stage) (Traverse stage) (reset v) in
  (v', all_issues v').

Definition get_summary (v : self) : string :=
  "Validation complete: "
  ++ format_nat (Counts.get (issue_counts v) ERROR) ++ " errors, "
  ++ format_nat (Counts.get (issue_counts v) WARNING) ++ " warnings, "
  ++ format_nat (Counts.get (issue_counts v) INFO) ++ " info".

(** The issues [print_issues] prints, in order. *)
Definition selected_issues (v : self)
    (severity_filter : option ValidationSeverity) : list ValidationIssue :=
  filter
    (fun issue =>
       match severity_filter with
       | None => true
       | Some s => Severity.eqb (severity issue) s
       end)
    (all_issues v).

(** [print_issues]: the lines written to standard output. *)
Definition print_issues (v : self)
    (severity_filter : option ValidationSeverity) : list string :=
  map Issue.__str__ (selected_issues v severity_filter).

Definition has_errors (v : self) : bool :=
  Nat.ltb 0 (Counts.get (issue_counts v) ERROR).

(** The record appended to [report["issues"]] for one issue. *)
Definition issue_record (issue : ValidationIssue) : json :=
  JObj [ ("path", JStr (path issue));
         ("message", JStr (message issue));
         ("severity", JStr (Severity.name (severity issue)));
         ("rule_id", JStr (rule_id issue));
         ("fix_description",
           match fix_description issue with
           | Some f => JStr f
           | None => JNull
           end) ].

(** The dictionary [report] that [generate_report] hands to
    [json.dump]. *)
Definition report (v : self) : json :=
  JObj [ ("summary",
           JObj [ ("errors", JInt (Counts.get (issue_counts v) ERROR));
                  ("warnings", JInt (Counts.get (issue_counts v) WARNING));
                  ("info", JInt (Counts.get (issue_counts v) INFO));
                  ("total", JInt (length (all_issues v))) ]);
         ("issues", JArr (map issue_record (all_issues v))) ].

(** [generate_report].  [open(output_path, 'w')] is not guarded: where
    the file cannot be opened for writing ([can_open] says whether it
    can) the call raises and nothing is written; otherwise the method
    returns having dumped the report into the file. *)
Definition generate_report (can_open : string -> bool) (v : self)
    (output_path : string) : outcome (string * json) :=
  if can_open output_path
  then Returned (output_path, report v)
  else Raised "OSError".

End SchemaValidator.

(* ================================================================== *)
(** ** Command-line entry point                                        *)
(* ================================================================== *)

(** The parsed command line. *)
Record Args : Type := {
  usd_file : string;
  report_arg : option string;     (* [--report] *)
  errors_only : bool              (* [--errors-only] *)
}.

(** What [main] asks of its environment. *)
Record Env : Type := {
  path_exists : string -> bool;            (* [os.path.exists] *)
  Stage_Open : string -> option UsdStage;  (* [Usd.Stage.Open], falsy on failure *)
  can_write : string -> bool               (* [open(path, 'w')] succeeds *)
}.

(** What a run of [main] leaves behind: the lines printed, the files
    written, and how [main] ended, with the value it returned or with
    an exception that nothing catches. *)
Record Outcome : Type := {
  stdout : list string;
  written : list (string * json);
  ended : outcome nat
}.

(** The status of the process.  [sys.exit(main())] passes on the value
    [main] returns; an exception that reaches the top level ends the
    interpreter with status 1. *)
Definition exit_code (o : Outcome) : nat :=
  match ended o with
  | Returned code => code
  | Raised _ => 1
  end.

Definition main `{PyFormat} (env : Env) (args : Args) : Outcome :=
  if negb (path_exists env (usd_file args)) then
    {| stdout := ["Error: File not found: " ++ usd_file args];
       written := [];
       ended := Returned 1 |}
  else
    match Stage_Open env (usd_file args) with
    | None =>
        {| stdout := ["Error: Failed to open USD stage: " ++ usd_file args];
           written := [];
           ended := Returned 1 |}
    | Some stage =>
        let validator := fst (SchemaValidator.validate_stage stage
                                SchemaValidator.__init__) in
        let severity_filter := if errors_only args then Some ERROR else None in
        let printed :=
          (SchemaValidator.get_summary validator
           :: SchemaValidator.print_issues validator severity_filter)%list in
        match report_arg args with
        | Some (String c p) =>
            match SchemaValidator.generate_report (can_write env) validator
                    (String c p) with
            | Returned file =>
                {| stdout :=
                     (printed
                      ++ [("Detailed report written to: " ++ String c p)%string])%list;
                   written := [file];
                   ended :=
                     Returned (if SchemaValidator.has_errors validator then 1 else 0) |}
            | Raised exception =>
                {| stdout := printed;
                   written := [];
                   ended := Raised exception |}
            end
        | _ =>
            {| stdout := printed;
               written := [];
               ended :=
                 Returned (if SchemaValidator.has_errors validator then 1 else 0) |}
        end
    end.

(* ================================================================== *)
(** ** Notions the properties are stated with                          *)
(* ================================================================== *)

Module Spec.

(** The naming convention in the specification's words:
    [sparkle:<category>:<name>], where category and name are letters
    and the name may continue with alphanumerics or underscore. *)
Definition between (lo hi c : ascii) : bool :=
  Nat.leb (nat_of_ascii lo) (nat_of_ascii c) &&
  Nat.leb (nat_of_ascii c) (nat_of_ascii hi).

Definition is_letter (c : ascii) : bool :=
  between "a" "z" c || between "A" "Z" c.

Definition is_word_char (c : ascii) : bool :=
  is_letter c || between "0" "9" c || Ascii.eqb c "_".

Fixpoint all_chars (p : ascii -> bool) (s : string) : bool :=
  match s with
  | EmptyString => true
  | String c s' => p c && all_chars p s'
  end.

Definition follows_convention (name : string) : Prop :=
  exists category first rest,
    name = "sparkle:" ++ category ++ ":" ++ String first rest
    /\ category <> ""
    /\ all_chars is_letter category = true
    /\ is_letter first = true
    /\ all_chars is_word_char rest = true.

(** Property names of a scene graph are identifiers joined by colons;
    in particular they hold no line break. *)
Definition newline_free (s : string) : bool :=
  all_chars (fun c => negb (Ascii.eqb c "010")) s.

(** An attribute the namespace rule is to flag. *)
Definition mismatching (a : UsdAttribute) : Prop :=
  String.prefix "sparkle:" (GetName a) = true
  /\ ~ follows_convention (GetName a).

(** [flags prim attrs issues]: [issues] holds one namespace issue for
    each mismatching attribute of [attrs], in order, and nothing else. *)
Inductive flags (prim : UsdPrim) : list UsdAttribute -> list ValidationIssue -> Prop :=
| flags_nil : flags prim [] []
| flags_hit a attrs issues :
    mismatching a -> flags prim attrs issues ->
    flags prim (a :: attrs)
          (NamespaceValidationRule.issue_for prim (GetName a) :: issues)
| flags_skip a attrs issues :
    ~ mismatching a -> flags prim attrs issues ->
    flags prim (a :: attrs) issues.

(** Number of issues of one severity in a list. *)
Definition count_severity (s : ValidationSeverity) (l : list ValidationIssue) : nat :=
  length (filter (fun issue => Severity.eqb (severity issue) s) l).

(** [issues(s)]: the issues of severity [s]. *)
Definition issues_of (s : ValidationSeverity) (l : list ValidationIssue)
    : list ValidationIssue :=
  filter (fun issue => Severity.eqb (severity issue) s) l.

(** The counters agree with the issue list. *)
Definition consistent (v : SchemaValidator.self) : Prop :=
  forall s,
    Counts.get (SchemaValidator.issue_counts v) s
    = count_severity s (SchemaValidator.all_issues v).

(** A message mentions a phrase when the phrase occurs in it. *)
Definition mentions (phrase msg : string) : Prop :=
  exists before after, msg = before ++ phrase ++ after.

(** The field names of a JSON object, in order. *)
Definition keys (j : json) : option (list string) :=
  match j with
  | JObj fields => Some (map fst fields)
  | _ => None
  end.

Definition same_keys (expected : list string) (j : json) : bool :=
  match keys j with
  | Some ks => if list_eq_dec string_dec ks expected then true else false
  | None => false
  end.

Definition is_int (j : json) : bool :=
  match j with JInt _ => true | _ => false end.

(** [has_shape issue_fields j]: [j] is
    [{summary: {errors, warnings, info, total}, issues: [...]}] with
    integer counts and every element of [issues] an object whose
    fields are [issue_fields]. *)
Definition has_shape (issue_fields : list string) (j : json) : bool :=
  match j with
  | JObj [ (k1, JObj counts); (k2, JArr items) ] =>
      String.eqb k1 "summary" && String.eqb k2 "issues"
      && same_keys ["errors"; "warnings"; "info"; "total"] (JObj counts)
      && forallb (fun kv => is_int (snd kv)) counts
      && forallb (same_keys issue_fields) items
  | _ => false
  end.

(** The issue record as the specification names its fields. *)
Definition documented_issue_fields : list string :=
  ["path"; "message"; "severity_name"; "rule_id"; "fix_description"].

(** The issue record as [generate_report] names them. *)
Definition written_issue_fields : list string :=
  ["path"; "message"; "severity"; "rule_id"; "fix_description"].

End Spec.

(** Conditions on prims and issues that further properties are stated
    with. *)
Module Conditions.

(** The prims [validate_stage] hands to the rules. *)
Definition validated (prim : UsdPrim) : bool :=
  IsValid prim && negb (IsAbstract prim).

(** What the rules return over a stage: prim by prim in traversal
    order and, for one prim, rule by rule in registration order. *)
Definition findings (rules : list ValidationRule) (stage : UsdStage)
    : list ValidationIssue :=
  flat_map
    (fun prim => flat_map (fun rule => rule_validate rule stage prim) rules)
    (filter validated (Traverse stage)).

(** An issue as a rule stamps it for a prim: the rule's identifier, the
    prim's path and a suggested fix that is not empty. *)
Definition stamped (rule : ValidationRule) (prim : UsdPrim)
    (issue : ValidationIssue) : Prop :=
  rule_id issue = rule_ident rule
  /\ path issue = GetPath prim
  /\ exists c f, fix_description issue = Some (String c f).

(** A health component the health rule has nothing to say about. *)
Definition health_clean (prim : UsdPrim) : Prop :=
  exists current_health max_health,
    GetAttribute prim "sparkle:health:current" = Some current_health
    /\ GetAttribute prim "sparkle:health:maximum" = Some max_health
    /\ GetTypeName current_health = ValueTypeNames.Float
    /\ GetTypeName max_health = ValueTypeNames.Float
    /\ (forall v, Get_float current_health = Some v -> PrimFloat.ltb v 0 = false)
    /\ (forall v, Get_float max_health = Some v -> PrimFloat.ltb v 0 = false)
    /\ (forall c m, Get_float current_health = Some c ->
                    Get_float max_health = Some m ->
                    PrimFloat.ltb m c = false).

(** A movement component the movement rule has nothing to say about. *)
Definition movement_clean (prim : UsdPrim) : Prop :=
  (exists speed_attr,
     GetAttribute prim "sparkle:movement:speed" = Some speed_attr
     /\ forall v, Get_float speed_attr = Some v ->
                  PrimFloat.ltb v 0 = false /\ PrimFloat.ltb 100 v = false)
  /\ (exists pattern_attr,
        GetAttribute prim "sparkle:movement:pattern" = Some pattern_attr
        /\ forall p, Get_token pattern_attr = Some p ->
                     In p MovementComponentValidationRule.allowed_patterns).

(** An AI component the AI rule has nothing to say about. *)
Definition ai_clean (prim : UsdPrim) : Prop :=
  (exists behavior_attr,
     GetAttribute prim "sparkle:ai:behavior" = Some behavior_attr
     /\ forall b, Get_token behavior_attr = Some b ->
                  In b AiComponentValidationRule.allowed_behaviors)
  /\ (forall radius_attr v,
        GetAttribute prim "sparkle:ai:detectionRadius" = Some radius_attr ->
        Get_float radius_attr = Some v -> PrimFloat.ltb v 0 = false)
  /\ (forall rel pattern_attr p,
        GetRelationship prim "sparkle:ai:patrolPath" = Some rel ->
        GetAttribute prim "sparkle:movement:pattern" = Some pattern_attr ->
        Get_token pattern_attr = Some p -> p = "patrol").

(** The attribute names the component and entity rules look up. *)
Definition consulted_names : list string :=
  ["sparkle:health:current"; "sparkle:health:maximum";
   "sparkle:movement:speed"; "sparkle:movement:pattern";
   "sparkle:ai:behavior"; "sparkle:ai:detectionRadius";
   "sparkle:entity:id"].

(** The report that [--report] asks for, if any, can be written. *)
Definition report_can_be_written (env : Env) (args : Args) : Prop :=
  forall c p, report_arg args = Some (String c p) ->
              can_write env (String c p) = true.

(** [x != x]: the float is not a number. *)
Definition is_nan (x : float) : bool := negb (PrimFloat.eqb x x).

End Conditions.

(** A rendering of floats to run the validator with on examples. *)
Definition sample_format : PyFormat :=
  {| format_float := fun f =>
       if PrimFloat.eqb f 150 then "150.0"
       else if PrimFloat.eqb f 100 then "100.0"
       else if PrimFloat.eqb f 0 then "0.0"
       else "?" |}.

(* ================================================================== *)
(** ** Sample scene graphs                                             *)
(* ================================================================== *)

Module Samples.

Definition float_attr (name : string) (f : float) : UsdAttribute :=
  {| GetName := name; GetTypeName := ValueTypeNames.Float;
     attr_value := Some (VtFloat f) |}.

Definition token_attr (name t : string) : UsdAttribute :=
  {| GetName := name; GetTypeName := "token"; attr_value := Some (VtToken t) |}.

(** An attribute that is declared and has no value authored. *)
Definition blank_attr (name type : string) : UsdAttribute :=
  {| GetName := name; GetTypeName := type; attr_value := None |}.

Definition mk_prim (p : string) (types schemas : list string)
    (attrs : list UsdAttribute) (rels : list UsdRelationship) : UsdPrim :=
  {| GetPath := p; IsValid := true; IsAbstract := false;
     type_lineage := types; GetAppliedSchemas := schemas;
     GetAttributes := attrs; GetRelationships := rels |}.

(** A prim none of the rules has anything to say about. *)
Definition plain_prim : UsdPrim :=
  mk_prim "/World/Rock" ["Xform"] [] [float_attr "size" 2] [].

(** Scenario A: current health above the maximum. *)
Definition hurt_prim : UsdPrim :=
  mk_prim "/World/Hero" ["Xform"] ["SparkleHealthAPI"]
    [float_attr "sparkle:health:current" 150;
     float_attr "sparkle:health:maximum" 100] [].

(** Scenario C: a name without a second namespace segment. *)
Definition bad_name_prim : UsdPrim :=
  mk_prim "/World/Crate" ["Xform"] []
    [float_attr "size" 2; float_attr "sparkle:BadName" 1;
     float_attr "sparkle:entity:weight" 3] [].

(** Every checked number sits exactly on its minimum. *)
Definition zero_prim : UsdPrim :=
  mk_prim "/World/Ghost" ["Xform"]
    ["SparkleHealthAPI"; "SparkleMovementAPI"; "SparkleAIAPI"]
    [float_attr "sparkle:health:current" 0;
     float_attr "sparkle:health:maximum" 0;
     float_attr "sparkle:movement:speed" 0;
     token_attr "sparkle:movement:pattern" "wander";
     token_attr "sparkle:ai:behavior" "passive";
     float_attr "sparkle:ai:detectionRadius" 0] [].

(** The checked attributes are all declared and none has a value. *)
Definition valueless_prim : UsdPrim :=
  mk_prim "/World/Husk" ["Xform"]
    ["SparkleHealthAPI"; "SparkleMovementAPI"]
    [blank_attr "sparkle:health:current" ValueTypeNames.Float;
     blank_attr "sparkle:health:maximum" ValueTypeNames.Float;
     blank_attr "sparkle:movement:speed" ValueTypeNames.Float;
     blank_attr "sparkle:movement:pattern" "token"] [].

Definition patrol_rel : UsdRelationship :=
  {| rel_name := "sparkle:ai:patrolPath"; rel_targets := ["/World/Path"] |}.

(** An AI with a patrol path whose movement pattern is not [patrol]. *)
Definition wandering_guard : UsdPrim :=
  mk_prim "/World/Guard" ["Xform"] ["SparkleAIAPI"; "SparkleMovementAPI"]
    [token_attr "sparkle:ai:behavior" "aggressive";
     float_attr "sparkle:movement:speed" 5;
     token_attr "sparkle:movement:pattern" "wander"] [patrol_rel].

(** An AI with a patrol path and no movement pattern at all. *)
Definition patternless_guard : UsdPrim :=
  mk_prim "/World/Sentry" ["Xform"] ["SparkleAIAPI"; "SparkleMovementAPI"]
    [token_attr "sparkle:ai:behavior" "aggressive";
     float_attr "sparkle:movement:speed" 5] [patrol_rel].

Definition scene : UsdStage :=
  {| Traverse := [plain_prim; hurt_prim; bad_name_prim; wandering_guard] |}.

(** A scene whose only findings are warnings. *)
Definition warning_scene : UsdStage :=
  {| Traverse := [plain_prim; wandering_guard] |}.

(** A file system with the two scenes above and a file that is not a
    scene graph; nothing can be written under [/no/such/dir/]. *)
Definition env : Env :=
  {| path_exists := fun p =>
       String.eqb p "scene.usda" || String.eqb p "warnings.usda"
       || String.eqb p "notes.txt";
     Stage_Open := fun p =>
       if String.eqb p "scene.usda" then Some scene
       else if String.eqb p "warnings.usda" then Some warning_scene
       else None;
     can_write := fun p => negb (String.prefix "/no/such/dir/" p) |}.


(** A class prim: abstract, and full of things the rules would flag. *)
Definition class_prim : UsdPrim :=
  {| GetPath := "/_class_Enemy"; IsValid := true; IsAbstract := true;
     type_lineage := ["SparkleEnemyCarrot"];
     GetAppliedSchemas := ["SparkleHealthAPI"];
     GetAttributes := [float_attr "sparkle:BadName" 1];
     GetRelationships := [] |}.

Definition class_scene : UsdStage := {| Traverse := [class_prim] |}.

(** A healthy hero. *)
Definition clean_hero : UsdPrim :=
  mk_prim "/World/Hero2" ["Xform"]
    ["SparkleHealthAPI"; "SparkleMovementAPI"; "SparkleAIAPI"]
    [float_attr "sparkle:health:current" 0;
     float_attr "sparkle:health:maximum" 100;
     float_attr "sparkle:movement:speed" 5;
     token_attr "sparkle:movement:pattern" "patrol";
     token_attr "sparkle:ai:behavior" "passive"] [patrol_rel].

(** Scenario B: a speed above one hundred. *)
Definition fast_prim : UsdPrim :=
  mk_prim "/World/Rocket" ["Xform"] ["SparkleMovementAPI"]
    [float_attr "sparkle:movement:speed" 150;
     token_attr "sparkle:movement:pattern" "charge"] [].

(** Health, speed and radius that are not numbers. *)
Definition nan_prim : UsdPrim :=
  mk_prim "/World/Glitch" ["Xform"]
    ["SparkleHealthAPI"; "SparkleMovementAPI"; "SparkleAIAPI"]
    [float_attr "sparkle:health:current" PrimFloat.nan;
     float_attr "sparkle:health:maximum" 100;
     float_attr "sparkle:movement:speed" PrimFloat.nan;
     token_attr "sparkle:movement:pattern" "wander";
     token_attr "sparkle:ai:behavior" "passive";
     float_attr "sparkle:ai:detectionRadius" PrimFloat.nan] [].

(** An enemy with health only. *)
Definition enemy_prim : UsdPrim :=
  mk_prim "/World/Carrot" ["SparkleEnemyCarrot"; "SparklePickup"]
    ["SparkleHealthAPI"]
    [float_attr "sparkle:health:current" 5;
     float_attr "sparkle:health:maximum" 10] [].

(** Scenario D: a pickup without and with its identifier. *)
Definition pickup_prim : UsdPrim :=
  mk_prim "/World/Coin" ["SparklePickup"] [] [] [].

Definition pickup_with_id : UsdPrim :=
  mk_prim "/World/Gem" ["SparklePickup"] []
    [token_attr "sparkle:entity:id" "gem_01"] [].


End Samples.

(* ================================================================== *)
(** ** Correctness of the matcher                                      *)
(* ================================================================== *)

Module ReFacts.
Import Re.

Lemma append_nil_inv (u v : string) : u ++ v = "" -> u = "" /\ v = "".
Proof. destruct u; simpl; intros E; [auto | discriminate]. Qed.

Lemma append_cons_inv (u v : string) c s :
  u ++ v = String c s ->
  (u = "" /\ v = String c s) \/ (exists u', u = String c u' /\ s = u' ++ v).
Proof.
  destruct u as [|d u']; simpl; intros E.
  - left; auto.
  - injection E as -> <-. right; eauto.
Qed.

Lemma append_nil_r (u : string) : u ++ "" = u.
Proof. induction u; simpl; congruence. Qed.

Lemma append_assoc (u v w : string) : (u ++ v) ++ w = u ++ (v ++ w).
Proof. induction u; simpl; congruence. Qed.

Lemma nullable_spec r : nullable r = true <-> lang r "".
Proof.
  induction r; simpl; split; intros Hx.
  - discriminate.
  - inversion Hx.
  - constructor.
  - reflexivity.
  - discriminate.
  - inversion Hx.
  - discriminate.
  - inversion Hx.
  - apply andb_true_iff in Hx as [H1 H2].
    change "" with ("" ++ ""). constructor; [apply IHr1 | apply IHr2]; auto.
  - inversion Hx as [| | |r' s' u v Hu Hv E1 E2| | | |]; subst.
    apply append_nil_inv in E2 as [-> ->].
    apply andb_true_iff; split; [apply IHr1 | apply IHr2]; auto.
  - apply orb_true_iff in Hx as [H1 | H2];
      [apply L_AltL, IHr1 | apply L_AltR, IHr2]; auto.
  - apply orb_true_iff.
    inversion Hx; subst; [left; apply IHr1 | right; apply IHr2]; auto.
  - constructor.
  - reflexivity.
Qed.

(** A non-empty word of [r*] starts with a non-empty word of [r]. *)
Lemma star_cons_inv r w :
  lang (Star r) w -> forall c s, w = String c s ->
  exists u v, s = u ++ v /\ lang r (String c u) /\ lang (Star r) v.
Proof.
  intros Hl. remember (Star r) as q eqn:Eq.
  induction Hl; try discriminate Eq; injection Eq as ->; intros c s E.
  - discriminate E.
  - apply append_cons_inv in E as [[-> ->] | (u' & -> & ->)].
    + apply IHHl2; auto.
    + exists u', v. auto.
Qed.

Lemma deriv_spec r : forall a w, lang (deriv a r) w <-> lang r (String a w).
Proof.
  induction r; intros a w; simpl.
  - split; intros Hx; inversion Hx.
  - split; intros Hx; inversion Hx.
  - destruct (Ascii.eqb_spec a c) as [<- | Hne]; split; intros Hx.
    + inversion Hx; subst. constructor.
    + inversion Hx; subst. constructor.
    + inversion Hx.
    + inversion Hx; subst. congruence.
  - destruct (in_class ranges a) eqn:Hc; split; intros Hx.
    + inversion Hx; subst. constructor; auto.
    + inversion Hx; subst. constructor.
    + inversion Hx.
    + inversion Hx; subst. congruence.
  - assert (Hseq : forall x, lang (Seq (deriv a r1) r2) x ->
                             lang (Seq r1 r2) (String a x)).
    { intros x Hx. inversion Hx; subst.
      change (String a (u ++ v)) with (String a u ++ v).
      constructor; auto. apply IHr1; auto. }
    destruct (nullable r1) eqn:Hn; split; intros Hx.
    + inversion Hx; subst; auto.
      change (String a w) with ("" ++ String a w).
      constructor; [apply nullable_spec; auto | apply IHr2; auto].
    + inversion Hx as [| | |r' s' u v Hu Hv E1 E2| | | |]; subst.
      apply append_cons_inv in E2 as [[-> ->] | (u' & -> & ->)].
      * apply L_AltR, IHr2; auto.
      * apply L_AltL. constructor; auto. apply IHr1; auto.
    + auto.
    + inversion Hx as [| | |r' s' u v Hu Hv E1 E2| | | |]; subst.
      apply append_cons_inv in E2 as [[-> ->] | (u' & -> & ->)].
      * apply nullable_spec in Hu. congruence.
      * constructor; auto. apply IHr1; auto.
  - split; intros Hx; inversion Hx; subst.
    + apply L_AltL, IHr1; auto.
    + apply L_AltR, IHr2; auto.
    + apply L_AltL, IHr1; auto.
    + apply L_AltR, IHr2; auto.
  - split; intros Hx.
    + inversion Hx; subst.
      change (String a (u ++ v)) with (String a u ++ v).
      constructor; auto. apply IHr; auto.
    + destruct (star_cons_inv _ _ Hx a w eq_refl) as (u & v & -> & Hu & Hv).
      constructor; auto. apply IHr; auto.
Qed.

Lemma fullmatch_spec s : forall r, fullmatch r s = true <-> lang r s.
Proof.
  induction s as [|c s IH]; intros r; simpl.
  - apply nullable_spec.
  - rewrite IH. apply deriv_spec.
Qed.

End ReFacts.

(* ================================================================== *)
(** ** The namespace pattern and the documented convention             *)
(* ================================================================== *)

Module NamespaceFacts.
Import Re ReFacts Spec NamespaceValidationRule.

Lemma lang_Seq_inv r s w :
  lang (Seq r s) w -> exists u v, w = u ++ v /\ lang r u /\ lang s v.
Proof. intros Hx; inversion Hx; subst; eauto. Qed.

Lemma lang_Str t : forall w, lang (Str t) w <-> w = t.
Proof.
  induction t as [|c t IH]; intros w; simpl; split; intros Hx.
  - inversion Hx; auto.
  - subst; constructor.
  - apply lang_Seq_inv in Hx as (u & v & -> & Hu & Hv).
    inversion Hu; subst. apply IH in Hv; subst. reflexivity.
  - subst. change (String c t) with (String c "" ++ t).
    constructor; [constructor | apply IH; auto].
Qed.

Lemma lang_Chr c w : lang (Chr c) w <-> w = String c "".
Proof. split; intros Hx; [inversion Hx; auto | subst; constructor]. Qed.

Lemma lang_Class rs w :
  lang (Class rs) w <-> exists c, w = String c "" /\ in_class rs c = true.
Proof.
  split; intros Hx.
  - inversion Hx; subst; eauto.
  - destruct Hx as (c & -> & Hc). constructor; auto.
Qed.

Lemma lang_Star_Class rs w :
  lang (Star (Class rs)) w <-> all_chars (in_class rs) w = true.
Proof.
  split.
  - intros Hx. remember (Star (Class rs)) as q eqn:Eq.
    induction Hx; try discriminate Eq; injection Eq as ->.
    + reflexivity.
    + apply lang_Class in Hx1 as (c & -> & Hc). simpl.
      rewrite Hc. simpl. apply IHHx2; reflexivity.
  - revert w. induction w as [|c w IH]; simpl; intros Hx.
    + constructor.
    + apply andb_true_iff in Hx as [Hc Hw].
      change (String c w) with (String c "" ++ w).
      constructor; [constructor; auto | auto].
Qed.

Lemma letter_class c : in_class [("a"%char, "z"%char); ("A"%char, "Z"%char)] c = is_letter c.
Proof. unfold in_class, is_letter, between, in_range; simpl. rewrite orb_false_r. reflexivity. Qed.

Lemma underscore_range c :
  in_range c ("_"%char, "_"%char) = Ascii.eqb c "_".
Proof. destruct c as [[] [] [] [] [] [] [] []]; reflexivity. Qed.

Lemma word_class c :
  in_class [("a"%char, "z"%char); ("A"%char, "Z"%char);
            ("0"%char, "9"%char); ("_"%char, "_"%char)] c = is_word_char c.
Proof.
  unfold in_class. simpl. rewrite underscore_range, orb_false_r.
  unfold is_word_char, is_letter, between, in_range; simpl.
  rewrite !orb_assoc. reflexivity.
Qed.

Lemma all_chars_ext p q s :
  (forall c, p c = q c) -> all_chars p s = all_chars q s.
Proof. intros E; induction s; simpl; [reflexivity | rewrite E, IHs; reflexivity]. Qed.

Lemma all_chars_letter s :
  all_chars (in_class [("a"%char, "z"%char); ("A"%char, "Z"%char)]) s
  = all_chars is_letter s.
Proof. apply all_chars_ext, letter_class. Qed.

Lemma all_chars_word s :
  all_chars (in_class [("a"%char, "z"%char); ("A"%char, "Z"%char);
                       ("0"%char, "9"%char); ("_"%char, "_"%char)]) s
  = all_chars is_word_char s.
Proof. apply all_chars_ext, word_class. Qed.

(** The body of the compiled pattern denotes the documented
    convention. *)
Lemma namespace_body_spec name :
  lang namespace_body name <-> follows_convention name.
Proof.
  unfold namespace_body, Plus, letter, word_char. split.
  - intros Hx.
    apply lang_Seq_inv in Hx as (p & w1 & -> & Hp & Hx). apply lang_Str in Hp; subst p.
    apply lang_Seq_inv in Hx as (cat & w2 & -> & Hcat & Hx).
    apply lang_Seq_inv in Hcat as (c1 & ct & -> & Hc1 & Hct).
    apply lang_Class in Hc1 as (c & -> & Hc).
    apply lang_Star_Class in Hct.
    apply lang_Seq_inv in Hx as (col & w3 & -> & Hcol & Hx).
    apply lang_Chr in Hcol; subst col.
    apply lang_Seq_inv in Hx as (f & rest & -> & Hf & Hrest).
    apply lang_Class in Hf as (first & -> & Hfirst).
    apply lang_Star_Class in Hrest.
    rewrite letter_class in Hc, Hfirst.
    rewrite all_chars_letter in Hct. rewrite all_chars_word in Hrest.
    exists (String c ct), first, rest. repeat split; auto.
    + discriminate.
    + simpl. apply andb_true_iff; auto.
  - intros (cat & first & rest & -> & Hne & Hcat & Hfirst & Hrest).
    constructor; [apply lang_Str; reflexivity |].
    constructor.
    + destruct cat as [|c ct]; [congruence |].
      simpl in Hcat. apply andb_true_iff in Hcat as [Hc Hct].
      change (String c ct) with (String c "" ++ ct).
      constructor.
      * constructor. rewrite letter_class; auto.
      * apply lang_Star_Class. rewrite all_chars_letter; auto.
    + change (":" ++ String first rest) with (":" ++ (String first "" ++ rest)).
      constructor; [constructor |].
      constructor.
      * constructor. rewrite letter_class; auto.
      * apply lang_Star_Class. rewrite all_chars_word; auto.
Qed.

Lemma strip_final_newline_none s :
  newline_free s = true -> strip_final_newline s = None.
Proof.
  induction s as [|c s IH]; simpl; [reflexivity |].
  intros Hx. apply andb_true_iff in Hx as [Hc Hs].
  destruct s as [|d s'].
  - destruct (Ascii.eqb c "010"); [discriminate | reflexivity].
  - rewrite (IH Hs). reflexivity.
Qed.

(** With [$] in the picture: the pattern accepts a name that follows
    the convention, and such a name followed by one line break. *)
Lemma strip_final_newline_some s : forall t,
  strip_final_newline s = Some t <-> s = t ++ String "010" "".
Proof.
  induction s as [|c s IH]; intros t; simpl.
  - split; [discriminate | destruct t; discriminate].
  - destruct s as [|d s'].
    + destruct (Ascii.eqb_spec c "010") as [-> | Hne]; split; intros Hx.
      * injection Hx as <-. reflexivity.
      * destruct t as [|e t']; [reflexivity |].
        simpl in Hx. injection Hx as _ Hx. destruct t'; discriminate.
      * discriminate.
      * destruct t as [|e t']; simpl in Hx.
        -- injection Hx as ->. congruence.
        -- injection Hx as _ Hx. destruct t'; discriminate.
    + destruct (strip_final_newline (String d s')) as [u|] eqn:Hu; split; intros Hx.
      * injection Hx as <-. simpl. f_equal. apply IH. reflexivity.
      * destruct t as [|e t']; simpl in Hx; [injection Hx as _ Hx; discriminate |].
        injection Hx as -> Hx. apply IH in Hx. congruence.
      * discriminate.
      * destruct t as [|e t']; simpl in Hx; [injection Hx as _ Hx; discriminate |].
        injection Hx as -> Hx. apply IH in Hx. congruence.
Qed.

Lemma namespace_pattern_match_full name :
  namespace_pattern_match name = true <->
  follows_convention name \/
  exists t, name = t ++ String "010" "" /\ follows_convention t.
Proof.
  unfold namespace_pattern_match, match_anchored.
  rewrite orb_true_iff, fullmatch_spec, namespace_body_spec.
  split; intros [Hx | Hx]; auto.
  - destruct (strip_final_newline name) as [t|] eqn:Ht; [| discriminate].
    right. exists t. split.
    + apply strip_final_newline_some; auto.
    + apply namespace_body_spec, fullmatch_spec; auto.
  - destruct Hx as (t & E & Ht). right.
    apply strip_final_newline_some in E. rewrite E.
    apply fullmatch_spec, namespace_body_spec; auto.
Qed.

Lemma namespace_pattern_match_spec name :
  newline_free name = true ->
  (namespace_pattern_match name = true <-> follows_convention name).
Proof.
  intros Hnl. unfold namespace_pattern_match, match_anchored.
  rewrite (strip_final_newline_none _ Hnl), orb_false_r.
  rewrite fullmatch_spec. apply namespace_body_spec.
Qed.

(** What one turn of the rule's loop does, in the convention's terms. *)
Lemma check_attr_hit prim a :
  newline_free (GetName a) = true -> mismatching a ->
  check_attr prim a = [issue_for prim (GetName a)].
Proof.
  intros Hnl [Hp Hc]. unfold check_attr. rewrite Hp. simpl.
  destruct (namespace_pattern_match (GetName a)) eqn:Hm; [| reflexivity].
  apply namespace_pattern_match_spec in Hm; tauto.
Qed.

Lemma check_attr_skip prim a :
  newline_free (GetName a) = true -> ~ mismatching a ->
  check_attr prim a = [].
Proof.
  intros Hnl Hn. unfold check_attr.
  destruct (String.prefix "sparkle:" (GetName a)) eqn:Hp; [| reflexivity]. simpl.
  destruct (namespace_pattern_match (GetName a)) eqn:Hm; [reflexivity |].
  exfalso. apply Hn. split; auto.
  intros Hc. apply namespace_pattern_match_spec in Hc; auto. congruence.
Qed.

Lemma mismatching_dec a :
  newline_free (GetName a) = true -> mismatching a \/ ~ mismatching a.
Proof.
  intros Hnl. unfold mismatching.
  destruct (String.prefix "sparkle:" (GetName a)); [| right; intros [? _]; discriminate].
  destruct (namespace_pattern_match (GetName a)) eqn:Hm.
  - right. intros [_ Hc]. apply Hc, namespace_pattern_match_spec; auto.
  - left. split; auto. intros Hc.
    apply namespace_pattern_match_spec in Hc; auto. congruence.
Qed.

End NamespaceFacts.

(* ================================================================== *)
(** ** Invariants of the validator's bookkeeping                       *)
(* ================================================================== *)

Module ValidatorFacts.
Import Spec SchemaValidator.

Lemma str_in_In x xs : str_in x xs = true <-> In x xs.
Proof.
  unfold str_in. rewrite existsb_exists. split.
  - intros (y & Hy & E). apply String.eqb_eq in E. subst; auto.
  - intros Hx. exists x. split; [auto | apply String.eqb_refl].
Qed.

Lemma str_in_not_In x xs : ~ In x xs -> str_in x xs = false.
Proof.
  intros Hn. destruct (str_in x xs) eqn:E; [| reflexivity].
  apply str_in_In in E. contradiction.
Qed.

Lemma get_incr c s s' :
  Counts.get (Counts.incr c s') s
  = Counts.get c s + (if Severity.eqb s' s then 1 else 0).
Proof. destruct s, s'; simpl; lia. Qed.

Lemma count_severity_app s l1 l2 :
  count_severity s (l1 ++ l2)%list = count_severity s l1 + count_severity s l2.
Proof. unfold count_severity. rewrite filter_app, length_app. reflexivity. Qed.

Lemma count_severity_cons s i l :
  count_severity s (i :: l)
  = (if Severity.eqb (severity i) s then 1 else 0) + count_severity s l.
Proof. unfold count_severity. simpl. destruct (Severity.eqb (severity i) s); reflexivity. Qed.

(** The inner loop [for issue in issues] adds, per severity, the
    number of issues of that severity. *)
Lemma get_fold_incr issues : forall c s,
  Counts.get (fold_left (fun c issue => Counts.incr c (severity issue)) issues c) s
  = Counts.get c s + count_severity s issues.
Proof.
  induction issues as [|i issues IH]; intros c s; simpl.
  - unfold count_severity; simpl; lia.
  - rewrite IH, get_incr, count_severity_cons. lia.
Qed.

Lemma apply_rule_rules stage prim v rule :
  rules (apply_rule stage prim v rule) = rules v.
Proof. unfold apply_rule. destruct (rule_validate rule stage prim); reflexivity. Qed.

Lemma apply_rule_consistent stage prim v rule :
  consistent v -> consistent (apply_rule stage prim v rule).
Proof.
  intros Hv s. unfold apply_rule.
  destruct (rule_validate rule stage prim) as [|i issues] eqn:E; [apply Hv |].
  cbn [all_issues issue_counts].
  rewrite get_fold_incr, count_severity_app, Hv. reflexivity.
Qed.

Lemma fold_rules_rules stage prim rs : forall v,
  rules (fold_left (apply_rule stage prim) rs v) = rules v.
Proof.
  induction rs as [|r rs IH]; intros v; simpl; [reflexivity |].
  rewrite IH. apply apply_rule_rules.
Qed.

Lemma fold_rules_consistent stage prim rs : forall v,
  consistent v -> consistent (fold_left (apply_rule stage prim) rs v).
Proof.
  induction rs as [|r rs IH]; intros v Hv; simpl; [assumption |].
  apply IH, apply_rule_consistent, Hv.
Qed.

Lemma _validate_prim_rules stage prim v :
  rules (_validate_prim stage prim v) = rules v.
Proof. apply fold_rules_rules. Qed.

Lemma _validate_prim_consistent stage prim v :
  consistent v -> consistent (_validate_prim stage prim v).
Proof. apply fold_rules_consistent. Qed.

Lemma reset_consistent v : consistent (reset v).
Proof. intros []; reflexivity. Qed.

Lemma validate_stage_unfold stage v :
  validate_stage stage v
  = (fold_left (visit stage) (Traverse stage) (reset v),
     all_issues (fold_left (visit stage) (Traverse stage) (reset v))).
Proof. reflexivity. Qed.

Lemma traverse_rules stage prims : forall v,
  rules (fold_left (visit stage) prims v) = rules v.
Proof.
  induction prims as [|p prims IH]; intros v; simpl; [reflexivity |].
  rewrite IH. unfold visit.
  destruct (IsValid p && negb (IsAbstract p)); [apply _validate_prim_rules | reflexivity].
Qed.

Lemma traverse_consistent stage prims : forall v,
  consistent v -> consistent (fold_left (visit stage) prims v).
Proof.
  induction prims as [|p prims IH]; intros v Hv; simpl; [assumption |].
  apply IH. unfold visit.
  destruct (IsValid p && negb (IsAbstract p)); [apply _validate_prim_consistent |]; assumption.
Qed.

Lemma validate_stage_rules stage v :
  rules (fst (validate_stage stage v)) = rules v.
Proof. rewrite validate_stage_unfold. simpl. rewrite traverse_rules. reflexivity. Qed.

Lemma validate_stage_consistent stage v :
  consistent (fst (validate_stage stage v)).
Proof.
  rewrite validate_stage_unfold. simpl.
  apply traverse_consistent, reset_consistent.
Qed.

(** Only the rules of the instance reach the result of a run. *)
Lemma validate_stage_same_rules stage v v' :
  rules v = rules v' -> validate_stage stage v = validate_stage stage v'.
Proof.
  intros E. rewrite !validate_stage_unfold.
  unfold reset. rewrite E. reflexivity.
Qed.

Lemma validate_stage_returns stage v :
  snd (validate_stage stage v) = all_issues (fst (validate_stage stage v)).
Proof. reflexivity. Qed.

(** [has_errors] in terms of the issue list, for a consistent state. *)
Lemma has_errors_consistent v :
  consistent v -> (has_errors v = true <-> issues_of ERROR (all_issues v) <> []).
Proof.
  intros Hv. unfold has_errors. rewrite Hv, Nat.ltb_lt.
  unfold count_severity, issues_of.
  destruct (filter _ (all_issues v)); simpl; split; intros Hx;
    try lia; congruence.
Qed.

End ValidatorFacts.

(** ** Comparisons of floats *)

Module FloatFacts.

(** A float equal to the bound is not below it. *)
Lemma eqb_not_ltb (x y : float) :
  PrimFloat.eqb x y = true -> PrimFloat.ltb x y = false.
Proof.
  rewrite eqb_spec, ltb_spec. unfold SFeqb, SFltb.
  destruct (SFcompare (Prim2SF x) (Prim2SF y)) as [[]|]; congruence.
Qed.

(** A zero, of either sign, is not above one hundred. *)
Lemma zero_not_above_100 (x : float) :
  PrimFloat.eqb x 0 = true -> PrimFloat.ltb 100 x = false.
Proof.
  rewrite eqb_spec, ltb_spec.
  replace (Prim2SF 0) with (S754_zero false) by reflexivity.
  destruct (Prim2SF x) as [s | s | | s m e].
  - intros _. vm_compute. reflexivity.
  - destruct s; discriminate.
  - discriminate.
  - destruct s; discriminate.
Qed.

End FloatFacts.

(* ================================================================== *)
(** ** Properties of the validator                                     *)
(* ================================================================== *)

Import Spec Conditions.

(** The report built from any state of the validator has the written
    shape, with the counters and the number of issues in its summary. *)
Lemma report_shape_of_state (v : SchemaValidator.self) :
  has_shape written_issue_fields (SchemaValidator.report v) = true.
Proof.
  unfold SchemaValidator.report, has_shape. simpl.
  induction (SchemaValidator.all_issues v) as [|i l IH]; simpl; auto.
Qed.

(** C1 (as amended): after every validation run the report is
    [{summary: {errors, warnings, info, total}, issues: [...]}] where
    every element of [issues] is a record with the fields [path],
    [message], [severity], [rule_id] and [fix_description], in this
    order; there is one record per accumulated issue, and the report is
    the same whatever the validator held before the run. *)
Theorem report_shape_after_run (stage : UsdStage) (v : SchemaValidator.self) :
  let v1 := fst (SchemaValidator.validate_stage stage v) in
  has_shape written_issue_fields (SchemaValidator.report v1) = true
  /\ (exists items,
        SchemaValidator.report v1 =
          JObj [ ("summary",
                   JObj [ ("errors", JInt (count_severity ERROR (SchemaValidator.all_issues v1)));
                          ("warnings", JInt (count_severity WARNING (SchemaValidator.all_issues v1)));
                          ("info", JInt (count_severity INFO (SchemaValidator.all_issues v1)));
                          ("total", JInt (length (SchemaValidator.all_issues v1))) ]);
                 ("issues", JArr items) ]
        /\ length items = length (SchemaValidator.all_issues v1))
  /\ (forall issues counts,
        SchemaValidator.report
          (fst (SchemaValidator.validate_stage stage
                  {| SchemaValidator.rules := SchemaValidator.rules v;
                     SchemaValidator.all_issues := issues;
                     SchemaValidator.issue_counts := counts |}))
        = SchemaValidator.report v1).
Proof.
  intros v1. split; [| split].
  - apply report_shape_of_state.
  - exists (map SchemaValidator.issue_record (SchemaValidator.all_issues v1)).
    split; [| apply length_map].
    unfold SchemaValidator.report.
    rewrite !(ValidatorFacts.validate_stage_consistent stage v). reflexivity.
  - intros issues counts. unfold v1.
    rewrite (ValidatorFacts.validate_stage_same_rules stage _ v); reflexivity.
Qed.

(** C1, as the claim words it, fails: the report of a run over the
    sample scene has not the documented shape, whose issue records carry
    a field [severity_name]; the records carry [severity] instead. *)
Lemma report_shape_not_documented :
  has_shape documented_issue_fields
    (SchemaValidator.report
       (fst (SchemaValidator.validate_stage Samples.scene
               (@SchemaValidator.__init__ sample_format)))) = false
  /\ map keys
       (map SchemaValidator.issue_record
          (snd (SchemaValidator.validate_stage Samples.scene
                  (@SchemaValidator.__init__ sample_format))))
     = [Some written_issue_fields; Some written_issue_fields;
        Some written_issue_fields].
Proof. split; vm_compute; reflexivity. Qed.

(** C2: validating the same stage a second time leaves the validator
    with the issue list and the counters of the first run, and returns
    the same list; a run starts from an empty list and zeroed counters,
    so what the validator held before has no part in the result. *)
Theorem validate_stage_idempotent (stage : UsdStage) (v : SchemaValidator.self) :
  let first := SchemaValidator.validate_stage stage v in
  let second := SchemaValidator.validate_stage stage (fst first) in
  snd second = snd first
  /\ SchemaValidator.all_issues (fst second) = SchemaValidator.all_issues (fst first)
  /\ (forall s,
        Counts.get (SchemaValidator.issue_counts (fst second)) s
        = Counts.get (SchemaValidator.issue_counts (fst first)) s)
  /\ (forall issues counts,
        SchemaValidator.validate_stage stage
          {| SchemaValidator.rules := SchemaValidator.rules v;
             SchemaValidator.all_issues := issues;
             SchemaValidator.issue_counts := counts |}
        = SchemaValidator.validate_stage stage (SchemaValidator.reset v))
  /\ SchemaValidator.all_issues (SchemaValidator.reset v) = []
  /\ (forall s, Counts.get (SchemaValidator.issue_counts (SchemaValidator.reset v)) s = 0).
Proof.
  intros first second.
  assert (E : second = first).
  { unfold second, first.
    apply ValidatorFacts.validate_stage_same_rules,
          ValidatorFacts.validate_stage_rules. }
  rewrite E. split; [| split; [| split; [| split; [| split]]]].
  - reflexivity.
  - reflexivity.
  - reflexivity.
  - intros issues counts.
    apply ValidatorFacts.validate_stage_same_rules. reflexivity.
  - reflexivity.
  - intros []; reflexivity.
Qed.

(** C3: after a run each counter is the number of accumulated issues
    of its severity, the summary line states these three numbers for
    errors, warnings and info in this order, and [has_errors] holds
    exactly when some accumulated issue is an ERROR. *)
Theorem counts_match_issues (stage : UsdStage) (v : SchemaValidator.self) :
  let v1 := fst (SchemaValidator.validate_stage stage v) in
  (forall s,
     Counts.get (SchemaValidator.issue_counts v1) s
     = length (SchemaValidator.selected_issues v1 (Some s)))
  /\ SchemaValidator.get_summary v1
     = "Validation complete: "
       ++ format_nat (length (SchemaValidator.selected_issues v1 (Some ERROR)))
       ++ " errors, "
       ++ format_nat (length (SchemaValidator.selected_issues v1 (Some WARNING)))
       ++ " warnings, "
       ++ format_nat (length (SchemaValidator.selected_issues v1 (Some INFO)))
       ++ " info"
  /\ (SchemaValidator.has_errors v1 = true
      <-> SchemaValidator.selected_issues v1 (Some ERROR) <> []).
Proof.
  intros v1.
  assert (Hc : forall s,
             Counts.get (SchemaValidator.issue_counts v1) s
             = length (SchemaValidator.selected_issues v1 (Some s))).
  { intros s. apply (ValidatorFacts.validate_stage_consistent stage v). }
  split; [exact Hc | split].
  - unfold SchemaValidator.get_summary. rewrite !Hc. reflexivity.
  - apply ValidatorFacts.has_errors_consistent,
          ValidatorFacts.validate_stage_consistent.
Qed.

(* ================================================================== *)
(** ** Properties of the rules                                         *)
(* ================================================================== *)

Lemma flat_map_all_nil {A B} (f : A -> list B) (l : list A) :
  Forall (fun x => f x = []) l -> flat_map f l = [].
Proof. induction 1 as [|x l Hx _ IH]; simpl; [| rewrite Hx, IH]; reflexivity. Qed.

(** C4: a rule that does not apply to a prim returns the empty list.
    The health, movement and AI rules do so for a prim without their
    schema, the namespace rule for a prim without [sparkle:] attributes,
    the entity-type rule for a prim that is none of the three entity
    types; the performance rule, which looks at every prim, returns the
    empty list when no count is over its threshold. *)
Theorem inapplicable_rule_returns_nothing `{PyFormat}
    (stage : UsdStage) (prim : UsdPrim) :
  (~ In "SparkleHealthAPI" (GetAppliedSchemas prim) ->
     HealthComponentValidationRule.validate stage prim = [])
  /\ (~ In "SparkleMovementAPI" (GetAppliedSchemas prim) ->
        MovementComponentValidationRule.validate stage prim = [])
  /\ (~ In "SparkleAIAPI" (GetAppliedSchemas prim) ->
        AiComponentValidationRule.validate stage prim = [])
  /\ (Forall (fun a => String.prefix "sparkle:" (GetName a) = false)
             (GetAttributes prim) ->
        NamespaceValidationRule.validate stage prim = [])
  /\ (IsA prim "SparkleEnemyCarrot" = false ->
      IsA prim "SparklePlayer" = false ->
      IsA prim "SparklePickup" = false ->
        EntityTypeValidationRule.validate stage prim = [])
  /\ (length (GetAppliedSchemas prim) <= 10 ->
      length (GetAttributes prim) <= 50 ->
      PerformanceValidationRule.expensive_count (GetAttributes prim) <= 10 ->
        PerformanceValidationRule.validate stage prim = []).
Proof.
  split; [| split; [| split; [| split; [| split]]]].
  - intros Hn. unfold HealthComponentValidationRule.validate.
    rewrite (ValidatorFacts.str_in_not_In _ _ Hn). reflexivity.
  - intros Hn. unfold MovementComponentValidationRule.validate.
    rewrite (ValidatorFacts.str_in_not_In _ _ Hn). reflexivity.
  - intros Hn. unfold AiComponentValidationRule.validate.
    rewrite (ValidatorFacts.str_in_not_In _ _ Hn). reflexivity.
  - intros Hall. unfold NamespaceValidationRule.validate.
    apply flat_map_all_nil. eapply Forall_impl; [| exact Hall].
    intros a Ha. unfold NamespaceValidationRule.check_attr. rewrite Ha. reflexivity.
  - intros He Hp Hk. unfold EntityTypeValidationRule.validate.
    rewrite He, Hp, Hk. reflexivity.
  - intros Hs Ha He. unfold PerformanceValidationRule.validate. cbv zeta.
    apply Nat.ltb_ge in Hs, Ha, He. rewrite Hs, Ha, He. reflexivity.
Qed.

Lemma inapplicable_rule_returns_nothing_witness :
  @HealthComponentValidationRule.validate sample_format Samples.scene Samples.plain_prim = []
  /\ @MovementComponentValidationRule.validate sample_format Samples.scene Samples.plain_prim = []
  /\ @AiComponentValidationRule.validate sample_format Samples.scene Samples.plain_prim = []
  /\ NamespaceValidationRule.validate Samples.scene Samples.plain_prim = []
  /\ EntityTypeValidationRule.validate Samples.scene Samples.plain_prim = []
  /\ PerformanceValidationRule.validate Samples.scene Samples.plain_prim = [].
Proof.
  destruct (@inapplicable_rule_returns_nothing sample_format
              Samples.scene Samples.plain_prim)
    as (Hh & Hm & Ha & Hn & He & Hp).
  split; [| split; [| split; [| split; [| split]]]].
  - apply Hh. simpl. tauto.
  - apply Hm. simpl. tauto.
  - apply Ha. simpl. tauto.
  - apply Hn. repeat constructor.
  - apply He; reflexivity.
  - apply Hp; cbv; lia.
Defined.

(** C5: a checked number that equals its minimum draws no finding from
    the check against that minimum.  For the two health attributes only
    the type check is left of the turn of the loop; the speed check and
    the detection-radius check return nothing. *)
Theorem value_on_minimum_is_accepted `{PyFormat}
    (prim : UsdPrim) (attr : UsdAttribute) (value : float) :
  Get_float attr = Some value ->
  (forall attr_name req min,
     In (attr_name, req) HealthComponentValidationRule.required_attrs ->
     HealthComponentValidationRule.req_min req = Some min ->
     PrimFloat.eqb value min = true ->
     HealthComponentValidationRule.check_min prim attr_name req attr = []
     /\ (GetAttribute prim attr_name = Some attr ->
         HealthComponentValidationRule.check_required prim (attr_name, req)
         = HealthComponentValidationRule.check_type prim attr_name req attr))
  /\ (PrimFloat.eqb value 0 = true ->
      MovementComponentValidationRule.check_speed_value prim attr = []
      /\ (GetAttribute prim "sparkle:movement:speed" = Some attr ->
          MovementComponentValidationRule.check_speed prim = []))
  /\ (PrimFloat.eqb value 0 = true ->
      AiComponentValidationRule.check_radius_value prim attr = []
      /\ (GetAttribute prim "sparkle:ai:detectionRadius" = Some attr ->
          AiComponentValidationRule.check_radius prim = [])).
Proof.
  intros Hget. split; [| split].
  - intros attr_name req min _ Hmin Heq.
    assert (Hc : HealthComponentValidationRule.check_min prim attr_name req attr = []).
    { unfold HealthComponentValidationRule.check_min.
      rewrite Hmin, Hget, (FloatFacts.eqb_not_ltb _ _ Heq). reflexivity. }
    split; [exact Hc |].
    intros Ha. unfold HealthComponentValidationRule.check_required.
    rewrite Ha, Hc. apply app_nil_r.
  - intros Heq.
    assert (Hc : MovementComponentValidationRule.check_speed_value prim attr = []).
    { unfold MovementComponentValidationRule.check_speed_value.
      rewrite Hget, (FloatFacts.eqb_not_ltb _ _ Heq),
              (FloatFacts.zero_not_above_100 _ Heq). reflexivity. }
    split; [exact Hc |].
    intros Ha. unfold MovementComponentValidationRule.check_speed.
    rewrite Ha. exact Hc.
  - intros Heq.
    assert (Hc : AiComponentValidationRule.check_radius_value prim attr = []).
    { unfold AiComponentValidationRule.check_radius_value.
      rewrite Hget, (FloatFacts.eqb_not_ltb _ _ Heq). reflexivity. }
    split; [exact Hc |].
    intros Ha. unfold AiComponentValidationRule.check_radius.
    rewrite Ha. exact Hc.
Qed.

Lemma value_on_minimum_is_accepted_witness :
  @HealthComponentValidationRule.validate sample_format Samples.scene Samples.zero_prim = []
  /\ @MovementComponentValidationRule.check_speed sample_format Samples.zero_prim = []
  /\ @AiComponentValidationRule.check_radius sample_format Samples.zero_prim = []
  /\ @HealthComponentValidationRule.check_min sample_format Samples.zero_prim
       "sparkle:health:current"
       {| HealthComponentValidationRule.req_type := ValueTypeNames.Float;
          HealthComponentValidationRule.req_min := Some 0%float |}
       (Samples.float_attr "sparkle:health:current" 0) = [].
Proof.
  split; [reflexivity |].
  split; [| split].
  - destruct (@value_on_minimum_is_accepted sample_format Samples.zero_prim
                (Samples.float_attr "sparkle:movement:speed" 0) 0%float eq_refl)
      as (_ & Hspeed & _).
    destruct (Hspeed eq_refl) as [_ Hs]. apply Hs. reflexivity.
  - destruct (@value_on_minimum_is_accepted sample_format Samples.zero_prim
                (Samples.float_attr "sparkle:ai:detectionRadius" 0) 0%float eq_refl)
      as (_ & _ & Hradius).
    destruct (Hradius eq_refl) as [_ Hr]. apply Hr. reflexivity.
  - destruct (@value_on_minimum_is_accepted sample_format Samples.zero_prim
                (Samples.float_attr "sparkle:health:current" 0) 0%float eq_refl)
      as (Hhealth & _ & _).
    apply (Hhealth _ _ 0%float); [simpl; auto | reflexivity | reflexivity].
Defined.

(** C6: a prim with schema [SparkleHealthAPI] whose attributes
    [sparkle:health:current] and [sparkle:health:maximum] are floats of
    value 150 and 100 gets exactly one issue from the health rule: an
    ERROR of rule [HEALTH_COMP_001] whose message mentions "exceeds
    maximum". *)
Theorem current_above_maximum_is_one_error `{PyFormat}
    (stage : UsdStage) (prim : UsdPrim) (current_health max_health : UsdAttribute) :
  In "SparkleHealthAPI" (GetAppliedSchemas prim) ->
  GetAttribute prim "sparkle:health:current" = Some current_health ->
  GetAttribute prim "sparkle:health:maximum" = Some max_health ->
  GetTypeName current_health = ValueTypeNames.Float ->
  GetTypeName max_health = ValueTypeNames.Float ->
  Get_float current_health = Some 150%float ->
  Get_float max_health = Some 100%float ->
  exists issue,
    HealthComponentValidationRule.validate stage prim = [issue]
    /\ severity issue = ERROR
    /\ rule_id issue = "HEALTH_COMP_001"
    /\ mentions "exceeds maximum" (message issue).
Proof.
  intros Hs Hc Hm Htc Htm Hvc Hvm.
  exists (HealthComponentValidationRule.exceeds_issue prim 150 100).
  split; [| split; [reflexivity | split; [reflexivity |]]].
  - unfold HealthComponentValidationRule.validate.
    apply ValidatorFacts.str_in_In in Hs. rewrite Hs.
    unfold HealthComponentValidationRule.required_attrs,
           HealthComponentValidationRule.check_relationship.
    cbn [negb flat_map HealthComponentValidationRule.check_required].
    rewrite Hc, Hm.
    unfold HealthComponentValidationRule.check_type,
           HealthComponentValidationRule.check_min.
    cbn [HealthComponentValidationRule.req_type HealthComponentValidationRule.req_min].
    rewrite Htc, Htm, Hvc, Hvm. reflexivity.
  - exists ("Current health (" ++ format_float 150%float ++ ") "),
           (" health (" ++ format_float 100%float ++ ")").
    cbn [message HealthComponentValidationRule.exceeds_issue].
    rewrite !ReFacts.append_assoc. reflexivity.
Qed.

Lemma current_above_maximum_is_one_error_witness :
  exists issue,
    @HealthComponentValidationRule.validate sample_format Samples.scene Samples.hurt_prim
    = [issue]
    /\ severity issue = ERROR
    /\ rule_id issue = "HEALTH_COMP_001"
    /\ mentions "exceeds maximum" (message issue).
Proof.
  apply (@current_above_maximum_is_one_error sample_format Samples.scene
           Samples.hurt_prim
           (Samples.float_attr "sparkle:health:current" 150)
           (Samples.float_attr "sparkle:health:maximum" 100));
    try reflexivity.
  simpl. auto.
Defined.

(** C10: where a checked attribute exists and reading its value fails,
    the value check is passed over.  For a health attribute the turn of
    the loop is left with the type check alone; the comparison of
    current and maximum health, the speed check and the pattern check
    return nothing. *)
Theorem unreadable_value_skips_value_checks `{PyFormat} (prim : UsdPrim) :
  (forall attr_name req attr,
     In (attr_name, req) HealthComponentValidationRule.required_attrs ->
     GetAttribute prim attr_name = Some attr ->
     Get_float attr = None ->
     HealthComponentValidationRule.check_min prim attr_name req attr = []
     /\ HealthComponentValidationRule.check_required prim (attr_name, req)
        = HealthComponentValidationRule.check_type prim attr_name req attr)
  /\ (forall current_health max_health,
        GetAttribute prim "sparkle:health:current" = Some current_health ->
        GetAttribute prim "sparkle:health:maximum" = Some max_health ->
        Get_float current_health = None \/ Get_float max_health = None ->
        HealthComponentValidationRule.check_relationship prim = [])
  /\ (forall speed_attr,
        GetAttribute prim "sparkle:movement:speed" = Some speed_attr ->
        Get_float speed_attr = None ->
        MovementComponentValidationRule.check_speed prim = [])
  /\ (forall pattern_attr,
        GetAttribute prim "sparkle:movement:pattern" = Some pattern_attr ->
        Get_token pattern_attr = None ->
        MovementComponentValidationRule.check_pattern prim = []).
Proof.
  split; [| split; [| split]].
  - intros attr_name req attr _ Ha Hv.
    assert (Hc : HealthComponentValidationRule.check_min prim attr_name req attr = []).
    { unfold HealthComponentValidationRule.check_min. rewrite Hv.
      destruct (HealthComponentValidationRule.req_min req); reflexivity. }
    split; [exact Hc |].
    unfold HealthComponentValidationRule.check_required.
    rewrite Ha, Hc. apply app_nil_r.
  - intros c m Hc Hm Hv.
    unfold HealthComponentValidationRule.check_relationship.
    rewrite Hc, Hm. destruct Hv as [Hv | Hv]; rewrite Hv.
    + reflexivity.
    + destruct (Get_float c); reflexivity.
  - intros a Ha Hv. unfold MovementComponentValidationRule.check_speed.
    rewrite Ha. unfold MovementComponentValidationRule.check_speed_value.
    rewrite Hv. reflexivity.
  - intros a Ha Hv. unfold MovementComponentValidationRule.check_pattern.
    rewrite Ha. unfold MovementComponentValidationRule.check_pattern_value.
    rewrite Hv. reflexivity.
Qed.

Lemma unreadable_value_skips_value_checks_witness :
  @HealthComponentValidationRule.check_required sample_format Samples.valueless_prim
     ("sparkle:health:current",
      {| HealthComponentValidationRule.req_type := ValueTypeNames.Float;
         HealthComponentValidationRule.req_min := Some 0%float |}) = []
  /\ @HealthComponentValidationRule.check_relationship sample_format
       Samples.valueless_prim = []
  /\ @MovementComponentValidationRule.check_speed sample_format
       Samples.valueless_prim = []
  /\ MovementComponentValidationRule.check_pattern Samples.valueless_prim = [].
Proof.
  destruct (@unreadable_value_skips_value_checks sample_format Samples.valueless_prim)
    as (Hreq & Hrel & Hspeed & Hpat).
  split; [| split; [| split]].
  - destruct (Hreq "sparkle:health:current"
                {| HealthComponentValidationRule.req_type := ValueTypeNames.Float;
                   HealthComponentValidationRule.req_min := Some 0%float |}
                (Samples.blank_attr "sparkle:health:current" ValueTypeNames.Float))
      as [_ E]; [simpl; auto | reflexivity | reflexivity |].
    rewrite E. reflexivity.
  - apply (Hrel (Samples.blank_attr "sparkle:health:current" ValueTypeNames.Float)
                (Samples.blank_attr "sparkle:health:maximum" ValueTypeNames.Float));
      [reflexivity | reflexivity | left; reflexivity].
  - apply (Hspeed (Samples.blank_attr "sparkle:movement:speed" ValueTypeNames.Float));
      reflexivity.
  - apply (Hpat (Samples.blank_attr "sparkle:movement:pattern" "token"));
      reflexivity.
Defined.

(** C7: on a prim whose attribute names hold no line break, the
    namespace rule returns one issue for each attribute whose name
    starts with [sparkle:] and does not follow the convention
    [sparkle:<category>:<name>], in attribute order, and nothing else;
    every issue is an ERROR of rule [SCHEMA_NAMESPACE_001] raised for an
    attribute whose name starts with [sparkle:]; and a prim on which
    [sparkle:BadName] is the only mismatching attribute gets exactly one
    issue. *)
Theorem namespace_rule_flags_mismatches (stage : UsdStage) (prim : UsdPrim) :
  Forall (fun a => newline_free (GetName a) = true) (GetAttributes prim) ->
  let issues := NamespaceValidationRule.validate stage prim in
  flags prim (GetAttributes prim) issues
  /\ (forall issue, In issue issues ->
        severity issue = ERROR
        /\ rule_id issue = "SCHEMA_NAMESPACE_001"
        /\ exists a, In a (GetAttributes prim)
                     /\ String.prefix "sparkle:" (GetName a) = true
                     /\ issue = NamespaceValidationRule.issue_for prim (GetName a))
  /\ (forall before a after,
        GetAttributes prim = (before ++ a :: after)%list ->
        GetName a = "sparkle:BadName" ->
        Forall (fun b => ~ mismatching b) (before ++ after)%list ->
        issues = [NamespaceValidationRule.issue_for prim "sparkle:BadName"]).
Proof.
  intros Hnl issues. unfold issues, NamespaceValidationRule.validate.
  split; [| split].
  - induction Hnl as [|a attrs Ha _ IH]; simpl; [constructor |].
    destruct (NamespaceFacts.mismatching_dec a Ha) as [Hm | Hm].
    + rewrite (NamespaceFacts.check_attr_hit prim a Ha Hm). simpl.
      constructor; assumption.
    + rewrite (NamespaceFacts.check_attr_skip prim a Ha Hm). simpl.
      constructor; assumption.
  - intros issue Hin. apply in_flat_map in Hin as (a & Ha & Hin).
    unfold NamespaceValidationRule.check_attr in Hin.
    destruct (String.prefix "sparkle:" (GetName a)) eqn:Hp; simpl in Hin; [| tauto].
    destruct (NamespaceValidationRule.namespace_pattern_match (GetName a));
      simpl in Hin; [tauto |].
    destruct Hin as [<- | []].
    split; [reflexivity | split; [reflexivity |]].
    exists a. auto.
  - intros before a after E Hname Hrest. rewrite E in *.
    apply Forall_app in Hnl as [Hb Hnl]. inversion Hnl as [|? ? Ha Hafter]; subst.
    apply Forall_app in Hrest as [Hrb Hra].
    rewrite flat_map_app. simpl.
    assert (Hquiet : forall l,
               Forall (fun a => newline_free (GetName a) = true) l ->
               Forall (fun b => ~ mismatching b) l ->
               flat_map (NamespaceValidationRule.check_attr prim) l = []).
    { intros l H1 H2. apply flat_map_all_nil.
      apply Forall_forall. intros b Hb'.
      apply NamespaceFacts.check_attr_skip;
        [apply (proj1 (Forall_forall _ _) H1) | apply (proj1 (Forall_forall _ _) H2)];
        assumption. }
    rewrite (Hquiet before Hb Hrb), (Hquiet after Hafter Hra), app_nil_r. simpl.
    unfold NamespaceValidationRule.check_attr. rewrite Hname. reflexivity.
Qed.

Lemma namespace_rule_flags_mismatches_witness :
  NamespaceValidationRule.validate Samples.scene Samples.bad_name_prim
  = [NamespaceValidationRule.issue_for Samples.bad_name_prim "sparkle:BadName"].
Proof.
  assert (Hnl : Forall (fun a => newline_free (GetName a) = true)
                       (GetAttributes Samples.bad_name_prim)).
  { repeat constructor. }
  destruct (namespace_rule_flags_mismatches Samples.scene Samples.bad_name_prim Hnl)
    as (_ & _ & Hbad).
  apply (Hbad [Samples.float_attr "size" 2]
              (Samples.float_attr "sparkle:BadName" 1)
              [Samples.float_attr "sparkle:entity:weight" 3]);
    [reflexivity | reflexivity |].
  repeat constructor.
  - intros [Hp _]. discriminate Hp.
  - intros [_ Hc]. apply Hc.
    exists "entity", "w"%char, "eight". repeat split. discriminate.
Defined.

(** C9: on a prim with schema [SparkleAIAPI] and relationship
    [sparkle:ai:patrolPath], a movement pattern that is present with a
    value other than [patrol] adds one WARNING to what the AI rule
    reports, and an absent movement pattern adds nothing; in the latter
    case the movement rule, where it applies, reports the missing
    attribute as a WARNING after its speed findings. *)
Theorem patrol_mismatch_is_a_warning `{PyFormat}
    (stage : UsdStage) (prim : UsdPrim) (patrol_path_rel : UsdRelationship) :
  In "SparkleAIAPI" (GetAppliedSchemas prim) ->
  GetRelationship prim "sparkle:ai:patrolPath" = Some patrol_path_rel ->
  (forall attr pattern,
     GetAttribute prim "sparkle:movement:pattern" = Some attr ->
     Get_token attr = Some pattern ->
     pattern <> "patrol" ->
     AiComponentValidationRule.check_patrol prim
       = [AiComponentValidationRule.patrol_issue prim pattern]
     /\ AiComponentValidationRule.validate stage prim
        = (AiComponentValidationRule.check_behavior prim
           ++ AiComponentValidationRule.check_radius prim
           ++ [AiComponentValidationRule.patrol_issue prim pattern])%list
     /\ severity (AiComponentValidationRule.patrol_issue prim pattern) = WARNING)
  /\ (GetAttribute prim "sparkle:movement:pattern" = None ->
      AiComponentValidationRule.check_patrol prim = []
      /\ AiComponentValidationRule.validate stage prim
         = (AiComponentValidationRule.check_behavior prim
            ++ AiComponentValidationRule.check_radius prim)%list
      /\ (In "SparkleMovementAPI" (GetAppliedSchemas prim) ->
          MovementComponentValidationRule.validate stage prim
          = (MovementComponentValidationRule.check_speed prim
             ++ [MovementComponentValidationRule.pattern_missing_issue prim])%list
          /\ severity (MovementComponentValidationRule.pattern_missing_issue prim)
             = WARNING)).
Proof.
  intros Hs Hrel. apply ValidatorFacts.str_in_In in Hs.
  split.
  - intros attr pattern Ha Hv Hne.
    assert (Hc : AiComponentValidationRule.check_patrol prim
                 = [AiComponentValidationRule.patrol_issue prim pattern]).
    { unfold AiComponentValidationRule.check_patrol. rewrite Hrel, Ha, Hv.
      apply String.eqb_neq in Hne. rewrite Hne. reflexivity. }
    split; [exact Hc | split; [| reflexivity]].
    unfold AiComponentValidationRule.validate. rewrite Hs, Hc. reflexivity.
  - intros Ha.
    assert (Hc : AiComponentValidationRule.check_patrol prim = []).
    { unfold AiComponentValidationRule.check_patrol. rewrite Hrel, Ha. reflexivity. }
    split; [exact Hc | split].
    + unfold AiComponentValidationRule.validate. rewrite Hs, Hc.
      simpl. rewrite app_nil_r. reflexivity.
    + intros Hm. apply ValidatorFacts.str_in_In in Hm.
      split; [| reflexivity].
      unfold MovementComponentValidationRule.validate. rewrite Hm.
      unfold MovementComponentValidationRule.check_pattern. rewrite Ha. reflexivity.
Qed.

Lemma patrol_mismatch_is_a_warning_witness :
  @AiComponentValidationRule.validate sample_format Samples.scene Samples.wandering_guard
    = [AiComponentValidationRule.patrol_issue Samples.wandering_guard "wander"]
  /\ @AiComponentValidationRule.validate sample_format Samples.scene
       Samples.patternless_guard = []
  /\ @MovementComponentValidationRule.validate sample_format Samples.scene
       Samples.patternless_guard
     = [MovementComponentValidationRule.pattern_missing_issue Samples.patternless_guard].
Proof.
  split; [| split].
  - destruct (@patrol_mismatch_is_a_warning sample_format Samples.scene
                Samples.wandering_guard Samples.patrol_rel) as [Hpresent _];
      [simpl; auto | reflexivity |].
    destruct (Hpresent (Samples.token_attr "sparkle:movement:pattern" "wander") "wander")
      as (_ & E & _); [reflexivity | reflexivity | discriminate |].
    rewrite E. reflexivity.
  - destruct (@patrol_mismatch_is_a_warning sample_format Samples.scene
                Samples.patternless_guard Samples.patrol_rel) as [_ Habsent];
      [simpl; auto | reflexivity |].
    destruct (Habsent eq_refl) as (_ & E & _). rewrite E. reflexivity.
  - destruct (@patrol_mismatch_is_a_warning sample_format Samples.scene
                Samples.patternless_guard Samples.patrol_rel) as [_ Habsent];
      [simpl; auto | reflexivity |].
    destruct (Habsent eq_refl) as (_ & _ & Hmove).
    destruct Hmove as [E _]; [simpl; auto |].
    rewrite E. reflexivity.
Defined.

(* ================================================================== *)
(** ** Properties of the entry point                                   *)
(* ================================================================== *)

(** A run that got as far as validating and whose report, if any, can
    be written returns 1 or 0 according to [has_errors]. *)
Lemma main_validated_exit_code `{PyFormat} (env : Env) (args : Args) (stage : UsdStage) :
  path_exists env (usd_file args) = true ->
  Stage_Open env (usd_file args) = Some stage ->
  report_can_be_written env args ->
  ended (main env args)
  = Returned (if SchemaValidator.has_errors
                   (fst (SchemaValidator.validate_stage stage SchemaValidator.__init__))
              then 1 else 0).
Proof.
  intros He Ho Hw. unfold main. rewrite He, Ho. cbn [negb].
  destruct (report_arg args) as [[|c p]|] eqn:Hr; try reflexivity.
  unfold SchemaValidator.generate_report. rewrite (Hw c p Hr). reflexivity.
Qed.





(* ================================================================== *)
(** ** Further properties: what a run accumulates                      *)
(* ================================================================== *)

Module RunFacts.
Import Spec Conditions SchemaValidator.

Lemma fold_rules_issues stage prim rs : forall v,
  all_issues (fold_left (apply_rule stage prim) rs v)
  = (all_issues v ++ flat_map (fun rule => rule_validate rule stage prim) rs)%list.
Proof.
  induction rs as [|r rs IH]; intros v; simpl.
  - symmetry. apply app_nil_r.
  - rewrite IH. unfold apply_rule.
    destruct (rule_validate r stage prim) as [|i issues]; simpl.
    + reflexivity.
    + rewrite <- app_assoc. reflexivity.
Qed.

Lemma traverse_issues stage rs prims : forall v,
  rules v = rs ->
  all_issues (fold_left (visit stage) prims v)
  = (all_issues v
     ++ flat_map (fun prim => flat_map (fun rule => rule_validate rule stage prim) rs)
                 (filter validated prims))%list.
Proof.
  induction prims as [|p prims IH]; intros v Hr; simpl.
  - symmetry. apply app_nil_r.
  - unfold visit at 2. fold (validated p). destruct (validated p); simpl.
    + rewrite IH by (rewrite ValidatorFacts._validate_prim_rules; exact Hr).
      unfold _validate_prim. rewrite fold_rules_issues, Hr, <- app_assoc.
      reflexivity.
    + apply IH, Hr.
Qed.

Lemma run_issues stage v :
  all_issues (fst (validate_stage stage v)) = findings (rules v) stage.
Proof.
  rewrite ValidatorFacts.validate_stage_unfold. simpl.
  rewrite (traverse_issues stage (rules v)) by reflexivity. reflexivity.
Qed.

Lemma length_by_severity (l : list ValidationIssue) :
  length l = count_severity ERROR l + count_severity WARNING l + count_severity INFO l.
Proof.
  induction l as [|i l IH]; [reflexivity |].
  rewrite !ValidatorFacts.count_severity_cons. simpl length.
  destruct (severity i); simpl; lia.
Qed.

Lemma findings_nil rs stage :
  Forall (fun prim => validated prim = false) (Traverse stage) ->
  findings rs stage = [].
Proof.
  intros Hall. unfold findings.
  replace (filter validated (Traverse stage)) with (@nil UsdPrim); [reflexivity |].
  induction Hall as [|p l Hp _ IH]; simpl; [reflexivity |].
  rewrite Hp. exact IH.
Qed.

Lemma in_findings rs stage issue :
  In issue (findings rs stage) <->
  exists prim rule,
    In prim (Traverse stage) /\ validated prim = true /\ In rule rs
    /\ In issue (rule_validate rule stage prim).
Proof.
  unfold findings. rewrite in_flat_map. split.
  - intros (prim & Hp & Hi). apply filter_In in Hp as [Hp Hv].
    apply in_flat_map in Hi as (rule & Hr & Hi). eauto 8.
  - intros (prim & rule & Hp & Hv & Hr & Hi).
    exists prim. split; [apply filter_In; auto |].
    apply in_flat_map. eauto.
Qed.

End RunFacts.

Import Conditions.

(** X1: a run accumulates, and returns, the findings of the rules prim
    by prim in traversal order and, for each prim, rule by rule in
    registration order; prims that are invalid or abstract contribute
    nothing. *)
Theorem run_collects_findings_in_order (stage : UsdStage) (v : SchemaValidator.self) :
  snd (SchemaValidator.validate_stage stage v)
    = findings (SchemaValidator.rules v) stage
  /\ SchemaValidator.all_issues (fst (SchemaValidator.validate_stage stage v))
    = findings (SchemaValidator.rules v) stage.
Proof.
  rewrite ValidatorFacts.validate_stage_returns, RunFacts.run_issues. auto.
Qed.

(** X2: over a stage none of whose prims is both valid and concrete (an
    empty stage for one) a run finds nothing: the returned list is
    empty, the three counters are zero, [has_errors] is false and the
    summary reads "0 errors, 0 warnings, 0 info". *)
Theorem run_over_nothing_to_validate (stage : UsdStage) (v : SchemaValidator.self) :
  Forall (fun prim => IsValid prim = false \/ IsAbstract prim = true)
         (Traverse stage) ->
  let v1 := fst (SchemaValidator.validate_stage stage v) in
  snd (SchemaValidator.validate_stage stage v) = []
  /\ SchemaValidator.issue_counts v1 = Counts.zero
  /\ SchemaValidator.has_errors v1 = false
  /\ SchemaValidator.get_summary v1
     = "Validation complete: 0 errors, 0 warnings, 0 info".
Proof.
  intros Hall v1.
  assert (Hskip : forall prims acc,
             Forall (fun prim => IsValid prim = false \/ IsAbstract prim = true) prims ->
             fold_left (SchemaValidator.visit stage) prims acc = acc).
  { induction prims as [|p prims IH]; intros acc Hp; simpl; [reflexivity |].
    inversion Hp as [|? ? H1 H2]; subst. rewrite <- (IH acc H2) at 2. f_equal.
    unfold SchemaValidator.visit.
    destruct H1 as [-> | ->]; [reflexivity | rewrite andb_false_r; reflexivity]. }
  assert (E : v1 = SchemaValidator.reset v).
  { unfold v1. rewrite ValidatorFacts.validate_stage_unfold. simpl.
    apply Hskip, Hall. }
  rewrite ValidatorFacts.validate_stage_returns. fold v1. rewrite E.
  repeat split.
Qed.

Lemma run_over_nothing_to_validate_witness :
  snd (SchemaValidator.validate_stage Samples.class_scene
         (@SchemaValidator.__init__ sample_format)) = []
  /\ SchemaValidator.get_summary
       (fst (SchemaValidator.validate_stage {| Traverse := [] |}
               (@SchemaValidator.__init__ sample_format)))
     = "Validation complete: 0 errors, 0 warnings, 0 info".
Proof.
  split.
  - apply (run_over_nothing_to_validate Samples.class_scene
             (@SchemaValidator.__init__ sample_format)).
    constructor; [right; reflexivity | constructor].
  - apply (run_over_nothing_to_validate {| Traverse := [] |}
             (@SchemaValidator.__init__ sample_format)).
    constructor.
Defined.

(** X3: after a run the number of accumulated issues, which the report
    gives as [total], is the sum of the three counters it gives as
    [errors], [warnings] and [info]. *)
Theorem total_is_sum_of_counters (stage : UsdStage) (v : SchemaValidator.self) :
  let v1 := fst (SchemaValidator.validate_stage stage v) in
  length (SchemaValidator.all_issues v1)
  = Counts.get (SchemaValidator.issue_counts v1) ERROR
    + Counts.get (SchemaValidator.issue_counts v1) WARNING
    + Counts.get (SchemaValidator.issue_counts v1) INFO
  /\ SchemaValidator.report v1
     = JObj [ ("summary",
                JObj [ ("errors", JInt (Counts.get (SchemaValidator.issue_counts v1) ERROR));
                       ("warnings", JInt (Counts.get (SchemaValidator.issue_counts v1) WARNING));
                       ("info", JInt (Counts.get (SchemaValidator.issue_counts v1) INFO));
                       ("total",
                         JInt (Counts.get (SchemaValidator.issue_counts v1) ERROR
                               + Counts.get (SchemaValidator.issue_counts v1) WARNING
                               + Counts.get (SchemaValidator.issue_counts v1) INFO)) ]);
              ("issues",
                JArr (map SchemaValidator.issue_record (SchemaValidator.all_issues v1))) ].
Proof.
  intros v1.
  assert (Hlen : length (SchemaValidator.all_issues v1)
                 = Counts.get (SchemaValidator.issue_counts v1) ERROR
                   + Counts.get (SchemaValidator.issue_counts v1) WARNING
                   + Counts.get (SchemaValidator.issue_counts v1) INFO).
  { rewrite !(ValidatorFacts.validate_stage_consistent stage v).
    apply RunFacts.length_by_severity. }
  split; [exact Hlen |].
  unfold SchemaValidator.report. rewrite Hlen. reflexivity.
Qed.

(* ================================================================== *)
(** ** Further properties: what the registered rules emit              *)
(* ================================================================== *)

Module RuleFacts.
Import Spec Conditions.

(** What every issue of a registered rule satisfies. *)
Definition sound_issue (rule : ValidationRule) (prim : UsdPrim)
    (issue : ValidationIssue) : Prop :=
  stamped rule prim issue /\ severity issue <> INFO.

Ltac stamp :=
  split; [split; [reflexivity | split; [reflexivity | do 2 eexists; reflexivity]]
         | discriminate].

Ltac walk :=
  repeat first
    [ apply Forall_nil
    | apply Forall_cons; [stamp |]
    | apply Forall_app; split
    | match goal with
      | |- context [match ?x with _ => _ end] => destruct x
      end ].

Lemma namespace_sound stage prim :
  Forall (sound_issue NamespaceValidationRule.rule prim)
         (NamespaceValidationRule.validate stage prim).
Proof.
  unfold NamespaceValidationRule.validate. apply Forall_flat_map, Forall_forall.
  intros a _. unfold NamespaceValidationRule.check_attr. walk.
Qed.

Lemma health_sound `{PyFormat} stage prim :
  Forall (sound_issue HealthComponentValidationRule.rule prim)
         (HealthComponentValidationRule.validate stage prim).
Proof.
  unfold HealthComponentValidationRule.validate,
         HealthComponentValidationRule.required_attrs,
         HealthComponentValidationRule.check_relationship.
  cbn [flat_map HealthComponentValidationRule.check_required].
  unfold HealthComponentValidationRule.check_type,
         HealthComponentValidationRule.check_min.
  cbn [HealthComponentValidationRule.req_min HealthComponentValidationRule.req_type].
  walk.
Qed.

Lemma movement_sound `{PyFormat} stage prim :
  Forall (sound_issue MovementComponentValidationRule.rule prim)
         (MovementComponentValidationRule.validate stage prim).
Proof.
  unfold MovementComponentValidationRule.validate,
         MovementComponentValidationRule.check_speed,
         MovementComponentValidationRule.check_speed_value,
         MovementComponentValidationRule.check_pattern,
         MovementComponentValidationRule.check_pattern_value.
  walk.
Qed.

Lemma ai_sound `{PyFormat} stage prim :
  Forall (sound_issue AiComponentValidationRule.rule prim)
         (AiComponentValidationRule.validate stage prim).
Proof.
  unfold AiComponentValidationRule.validate,
         AiComponentValidationRule.check_behavior,
         AiComponentValidationRule.check_radius,
         AiComponentValidationRule.check_radius_value,
         AiComponentValidationRule.check_patrol.
  walk.
Qed.

Lemma performance_sound stage prim :
  Forall (sound_issue PerformanceValidationRule.rule prim)
         (PerformanceValidationRule.validate stage prim).
Proof.
  unfold PerformanceValidationRule.validate. cbv zeta. walk.
Qed.

Lemma entity_sound stage prim :
  Forall (sound_issue EntityTypeValidationRule.rule prim)
         (EntityTypeValidationRule.validate stage prim).
Proof.
  unfold EntityTypeValidationRule.validate,
         EntityTypeValidationRule._validate_enemy,
         EntityTypeValidationRule._validate_player,
         EntityTypeValidationRule._validate_pickup,
         EntityTypeValidationRule.check_expected.
  cbn [flat_map]. walk.
Qed.

(** Every registered rule stamps what it returns. *)
Lemma registered_sound `{PyFormat} rule stage prim :
  In rule (SchemaValidator.rules SchemaValidator.__init__) ->
  Forall (sound_issue rule prim) (rule_validate rule stage prim).
Proof.
  simpl. intros [<- | [<- | [<- | [<- | [<- | [<- | []]]]]]].
  - apply namespace_sound.
  - apply health_sound.
  - apply movement_sound.
  - apply ai_sound.
  - apply performance_sound.
  - apply entity_sound.
Qed.

(** No registered rule looks at the stage. *)
Lemma registered_local `{PyFormat} rule stage stage' prim :
  In rule (SchemaValidator.rules SchemaValidator.__init__) ->
  rule_validate rule stage prim = rule_validate rule stage' prim.
Proof.
  simpl. intros [<- | [<- | [<- | [<- | [<- | [<- | []]]]]]]; reflexivity.
Qed.

Lemma count_severity_none s l :
  Forall (fun issue => severity issue <> s) l -> count_severity s l = 0.
Proof.
  induction 1 as [|i l Hi _ IH]; [reflexivity |].
  rewrite ValidatorFacts.count_severity_cons, IH.
  destruct (severity i), s; simpl; congruence.
Qed.

End RuleFacts.

(** X4: with the registered rules no accumulated issue has severity
    INFO, the INFO counter is zero after every run, and the number of
    issues is the number of errors plus the number of warnings. *)
Theorem registered_rules_never_report_info `{PyFormat} (stage : UsdStage) :
  let v1 := fst (SchemaValidator.validate_stage stage SchemaValidator.__init__) in
  Forall (fun issue => severity issue = ERROR \/ severity issue = WARNING)
         (SchemaValidator.all_issues v1)
  /\ Counts.get (SchemaValidator.issue_counts v1) INFO = 0
  /\ length (SchemaValidator.all_issues v1)
     = Counts.get (SchemaValidator.issue_counts v1) ERROR
       + Counts.get (SchemaValidator.issue_counts v1) WARNING.
Proof.
  intros v1. subst v1.
  set (v1 := fst (SchemaValidator.validate_stage stage SchemaValidator.__init__)).
  assert (Hno : Forall (fun issue => severity issue <> INFO)
                       (SchemaValidator.all_issues v1)).
  { unfold v1. rewrite RunFacts.run_issues. apply Forall_forall.
    intros issue Hin.
    apply RunFacts.in_findings in Hin as (prim & rule & _ & _ & Hr & Hi).
    pose proof (RuleFacts.registered_sound rule stage prim Hr) as Hs.
    apply (proj1 (Forall_forall _ _) Hs issue Hi). }
  assert (Hz : Counts.get (SchemaValidator.issue_counts v1) INFO = 0).
  { unfold v1. rewrite (ValidatorFacts.validate_stage_consistent stage _ INFO).
    apply RuleFacts.count_severity_none, Hno. }
  split; [| split; [exact Hz |]].
  - eapply Forall_impl; [| exact Hno].
    intros issue Hi. cbv beta in Hi. destruct (severity issue); auto. congruence.
  - rewrite <- (Nat.add_0_r (_ + _)), <- Hz. unfold v1.
    rewrite !(ValidatorFacts.validate_stage_consistent stage _).
    apply RunFacts.length_by_severity.
Qed.

(** X5: every issue of a run with the registered rules comes from one
    registered rule looking at one valid, concrete prim of the stage; it
    carries that rule's identifier and that prim's path, and its
    suggested fix is not empty.  The identifiers of the registered
    rules are pairwise distinct, so the identifier names the rule. *)
Theorem issues_name_their_rule_and_prim `{PyFormat} (stage : UsdStage) :
  NoDup (map rule_ident (SchemaValidator.rules SchemaValidator.__init__))
  /\ forall issue,
       In issue (snd (SchemaValidator.validate_stage stage SchemaValidator.__init__)) ->
       exists prim rule,
         In prim (Traverse stage)
         /\ IsValid prim = true /\ IsAbstract prim = false
         /\ In rule (SchemaValidator.rules SchemaValidator.__init__)
         /\ In issue (rule_validate rule stage prim)
         /\ stamped rule prim issue.
Proof.
  split.
  - simpl. repeat constructor; simpl; intuition discriminate.
  - intros issue Hin.
    rewrite ValidatorFacts.validate_stage_returns, RunFacts.run_issues in Hin.
    apply RunFacts.in_findings in Hin as (prim & rule & Hp & Hv & Hr & Hi).
    exists prim, rule.
    unfold validated in Hv. apply andb_true_iff in Hv as [Hv Ha].
    apply negb_true_iff in Ha.
    repeat (split; [assumption |]).
    pose proof (RuleFacts.registered_sound rule stage prim Hr) as Hs.
    apply (proj1 (Forall_forall _ _) Hs issue Hi).
Qed.

(** X6: with the registered rules, what a prim is reported for does not
    depend on the other prims of the stage: the issues of a stage that
    traverses [prims1] and then [prims2] are the issues of [prims1]
    followed by the issues of [prims2]. *)
Theorem findings_of_a_prim_are_local `{PyFormat} (prims1 prims2 : list UsdPrim) :
  snd (SchemaValidator.validate_stage {| Traverse := (prims1 ++ prims2)%list |}
         SchemaValidator.__init__)
  = (snd (SchemaValidator.validate_stage {| Traverse := prims1 |}
            SchemaValidator.__init__)
     ++ snd (SchemaValidator.validate_stage {| Traverse := prims2 |}
               SchemaValidator.__init__))%list.
Proof.
  rewrite !ValidatorFacts.validate_stage_returns, !RunFacts.run_issues.
  unfold findings. cbn [Traverse].
  rewrite filter_app, flat_map_app.
  assert (Hloc : forall s s' l,
             flat_map (fun prim =>
                         flat_map (fun rule => rule_validate rule s prim)
                                  (SchemaValidator.rules SchemaValidator.__init__)) l
             = flat_map (fun prim =>
                           flat_map (fun rule => rule_validate rule s' prim)
                                    (SchemaValidator.rules SchemaValidator.__init__)) l).
  { intros s s' l. apply flat_map_ext. intros prim. reflexivity. }
  f_equal; apply Hloc.
Qed.

(* ================================================================== *)
(** ** Further properties: when a component rule passes                *)
(* ================================================================== *)

Module MoreFloatFacts.
Import Conditions.

(** A float above one hundred is not below zero. *)
Lemma above_100_not_negative (x : float) :
  PrimFloat.ltb 100 x = true -> PrimFloat.ltb x 0 = false.
Proof.
  rewrite !ltb_spec.
  replace (Prim2SF 0) with (S754_zero false) by reflexivity.
  remember (Prim2SF 100) as h eqn:Hh. vm_compute in Hh. subst h.
  destruct (Prim2SF x) as [s | s | | s m e]; try discriminate.
  - destruct s; [discriminate | reflexivity].
  - destruct s; [discriminate | reflexivity].
Qed.

Lemma SFcompare_nan_iff (f : spec_float) :
  SFeqb f f = false -> f = S754_nan.
Proof.
  destruct f as [s | s | | s m e]; unfold SFeqb, SFcompare; try discriminate.
  - destruct s; discriminate.
  - reflexivity.
  - rewrite Z.compare_refl.
    change (Pos.compare_cont Eq m m) with (Pos.compare m m).
    rewrite Pos.compare_refl. destruct s; discriminate.
Qed.

(** A float that is not a number is neither below nor above anything. *)
Lemma nan_compares_false (x y : float) :
  is_nan x = true -> PrimFloat.ltb x y = false /\ PrimFloat.ltb y x = false.
Proof.
  unfold is_nan. rewrite negb_true_iff, eqb_spec. intros Hx.
  apply SFcompare_nan_iff in Hx. rewrite !ltb_spec, Hx.
  split; [reflexivity |]. unfold SFltb, SFcompare.
  destruct (Prim2SF y); reflexivity.
Qed.

End MoreFloatFacts.

Module BlockFacts.
Import Conditions.

Lemma flat_map_filter {A B} (c : A -> bool) (g : A -> B) (l : list A) :
  flat_map (fun x => if c x then [g x] else []) l = map g (filter c l).
Proof.
  induction l as [|x l IH]; simpl; [reflexivity |].
  destruct (c x); simpl; rewrite IH; reflexivity.
Qed.

Lemma app_nil_both {A} (l1 l2 : list A) : l1 = [] -> l2 = [] -> (l1 ++ l2)%list = [].
Proof. intros -> ->. reflexivity. Qed.

Lemma not_str_in x xs : negb (str_in x xs) = false <-> In x xs.
Proof. rewrite negb_false_iff. apply ValidatorFacts.str_in_In. Qed.

(** The turn of the health rule's loop for an attribute that is there,
    has the expected type and no value below the minimum. *)
Lemma check_required_nil `{PyFormat} prim attr_name req :
  HealthComponentValidationRule.check_required prim (attr_name, req) = [] <->
  exists attr,
    GetAttribute prim attr_name = Some attr
    /\ GetTypeName attr = HealthComponentValidationRule.req_type req
    /\ forall min v,
         HealthComponentValidationRule.req_min req = Some min ->
         Get_float attr = Some v -> PrimFloat.ltb v min = false.
Proof.
  unfold HealthComponentValidationRule.check_required.
  destruct (GetAttribute prim attr_name) as [attr|].
  - unfold HealthComponentValidationRule.check_type,
           HealthComponentValidationRule.check_min.
    split.
    + intros Hnil. apply app_eq_nil in Hnil as [Ht Hm].
      exists attr. split; [reflexivity |]. split.
      * destruct (String.eqb_spec (GetTypeName attr)
                    (HealthComponentValidationRule.req_type req)); [assumption | discriminate].
      * intros min v Hmin Hv. rewrite Hmin, Hv in Hm.
        destruct (PrimFloat.ltb v min); [discriminate | reflexivity].
    + intros (a & Ha & Ht & Hv). injection Ha as <-.
      rewrite Ht, String.eqb_refl. simpl.
      destruct (HealthComponentValidationRule.req_min req) as [min|]; [| reflexivity].
      destruct (Get_float attr) as [v|]; [| reflexivity].
      rewrite (Hv min v eq_refl eq_refl). reflexivity.
  - split; [discriminate | intros (a & Ha & _); discriminate].
Qed.

End BlockFacts.

(** X7: on a prim with schema [SparkleHealthAPI] the health rule
    returns nothing exactly when both health attributes exist with type
    float, neither has a readable value below zero, and the current
    value is not above the maximum when both are readable. *)
Theorem health_rule_passes_iff `{PyFormat} (stage : UsdStage) (prim : UsdPrim) :
  In "SparkleHealthAPI" (GetAppliedSchemas prim) ->
  (HealthComponentValidationRule.validate stage prim = [] <-> health_clean prim).
Proof.
  intros Hs. apply ValidatorFacts.str_in_In in Hs.
  unfold HealthComponentValidationRule.validate. rewrite Hs.
  unfold HealthComponentValidationRule.required_attrs.
  cbn [negb flat_map]. rewrite app_nil_r.
  split.
  - intros Hnil. apply app_eq_nil in Hnil as [Hreq Hrel].
    apply app_eq_nil in Hreq as [Hc Hm].
    apply BlockFacts.check_required_nil in Hc as (c & Hc & Htc & Hvc).
    apply BlockFacts.check_required_nil in Hm as (m & Hm & Htm & Hvm).
    exists c, m. repeat (split; [assumption |]).
    split; [intros v Hv; apply (Hvc 0%float v eq_refl Hv) |].
    split; [intros v Hv; apply (Hvm 0%float v eq_refl Hv) |].
    intros cv mv Hcv Hmv.
    unfold HealthComponentValidationRule.check_relationship in Hrel.
    rewrite Hc, Hm, Hcv, Hmv in Hrel.
    destruct (PrimFloat.ltb mv cv); [discriminate | reflexivity].
  - intros (c & m & Hc & Hm & Htc & Htm & Hvc & Hvm & Hrel).
    assert (E1 : HealthComponentValidationRule.check_required prim
                   ("sparkle:health:current",
                    {| HealthComponentValidationRule.req_type := ValueTypeNames.Float;
                       HealthComponentValidationRule.req_min := Some 0%float |}) = []).
    { apply BlockFacts.check_required_nil. exists c.
      split; [assumption | split; [assumption |]].
      intros min v Hmin Hv. injection Hmin as <-. auto. }
    assert (E2 : HealthComponentValidationRule.check_required prim
                   ("sparkle:health:maximum",
                    {| HealthComponentValidationRule.req_type := ValueTypeNames.Float;
                       HealthComponentValidationRule.req_min := Some 0%float |}) = []).
    { apply BlockFacts.check_required_nil. exists m.
      split; [assumption | split; [assumption |]].
      intros min v Hmin Hv. injection Hmin as <-. auto. }
    rewrite E1, E2. simpl.
    unfold HealthComponentValidationRule.check_relationship. rewrite Hc, Hm.
    destruct (Get_float c) as [cv|]; [| reflexivity].
    destruct (Get_float m) as [mv|]; [| reflexivity].
    rewrite (Hrel cv mv eq_refl eq_refl). reflexivity.
Qed.

Lemma health_rule_passes_iff_witness :
  @HealthComponentValidationRule.validate sample_format Samples.scene Samples.clean_hero = []
  /\ health_clean Samples.clean_hero.
Proof.
  assert (Hc : health_clean Samples.clean_hero).
  { exists (Samples.float_attr "sparkle:health:current" 0),
           (Samples.float_attr "sparkle:health:maximum" 100).
    repeat (split; [reflexivity |]).
    split; [| split].
    - intros v Hv. injection Hv as <-. reflexivity.
    - intros v Hv. injection Hv as <-. reflexivity.
    - intros c m Hcv Hmv. injection Hcv as <-. injection Hmv as <-. reflexivity. }
  split; [| exact Hc].
  apply (@health_rule_passes_iff sample_format Samples.scene Samples.clean_hero);
    [simpl; auto | exact Hc].
Defined.

(** X8: on a prim with schema [SparkleMovementAPI] the movement rule
    returns nothing exactly when the speed attribute exists with no
    readable value below zero or above one hundred, and the pattern
    attribute exists with no readable value outside the allowed
    patterns. *)
Theorem movement_rule_passes_iff `{PyFormat} (stage : UsdStage) (prim : UsdPrim) :
  In "SparkleMovementAPI" (GetAppliedSchemas prim) ->
  (MovementComponentValidationRule.validate stage prim = [] <-> movement_clean prim).
Proof.
  intros Hs. apply ValidatorFacts.str_in_In in Hs.
  unfold MovementComponentValidationRule.validate. rewrite Hs. cbn [negb].
  unfold movement_clean,
         MovementComponentValidationRule.check_speed,
         MovementComponentValidationRule.check_speed_value,
         MovementComponentValidationRule.check_pattern,
         MovementComponentValidationRule.check_pattern_value.
  split.
  - intros Hnil. apply app_eq_nil in Hnil as [Hspeed Hpat]. split.
    + destruct (GetAttribute prim "sparkle:movement:speed") as [a|]; [| discriminate].
      exists a. split; [reflexivity |]. intros v Hv. rewrite Hv in Hspeed.
      destruct (PrimFloat.ltb v 0); [discriminate |].
      destruct (PrimFloat.ltb 100 v); [discriminate | auto].
    + destruct (GetAttribute prim "sparkle:movement:pattern") as [a|]; [| discriminate].
      exists a. split; [reflexivity |]. intros p Hp. rewrite Hp in Hpat.
      destruct (str_in p MovementComponentValidationRule.allowed_patterns) eqn:Hin;
        [apply ValidatorFacts.str_in_In; exact Hin | discriminate].
  - intros [(a & Ha & Hv) (b & Hb & Hp)]. rewrite Ha, Hb.
    destruct (Get_float a) as [v|].
    + destruct (Hv v eq_refl) as [-> ->]. cbn [app].
      destruct (Get_token b) as [p|]; [| reflexivity].
      rewrite (proj2 (ValidatorFacts.str_in_In _ _) (Hp p eq_refl)). reflexivity.
    + cbn [app]. destruct (Get_token b) as [p|]; [| reflexivity].
      rewrite (proj2 (ValidatorFacts.str_in_In _ _) (Hp p eq_refl)). reflexivity.
Qed.

Lemma movement_rule_passes_iff_witness :
  @MovementComponentValidationRule.validate sample_format Samples.scene
     Samples.clean_hero = []
  /\ movement_clean Samples.clean_hero.
Proof.
  assert (Hc : movement_clean Samples.clean_hero).
  { split.
    - exists (Samples.float_attr "sparkle:movement:speed" 5).
      split; [reflexivity |]. intros v Hv. injection Hv as <-. split; reflexivity.
    - exists (Samples.token_attr "sparkle:movement:pattern" "patrol").
      split; [reflexivity |]. intros p Hp. injection Hp as <-. simpl. auto. }
  split; [| exact Hc].
  apply (@movement_rule_passes_iff sample_format Samples.scene Samples.clean_hero);
    [simpl; auto | exact Hc].
Defined.

(** X9: on a prim with schema [SparkleAIAPI] the AI rule returns
    nothing exactly when the behavior attribute exists with no readable
    value outside the allowed behaviors, a detection radius that is
    there has no readable value below zero, and, where the prim has a
    patrol path, a movement pattern that is there and readable is
    [patrol]. *)
Theorem ai_rule_passes_iff `{PyFormat} (stage : UsdStage) (prim : UsdPrim) :
  In "SparkleAIAPI" (GetAppliedSchemas prim) ->
  (AiComponentValidationRule.validate stage prim = [] <-> ai_clean prim).
Proof.
  intros Hs. apply ValidatorFacts.str_in_In in Hs.
  unfold AiComponentValidationRule.validate. rewrite Hs. cbn [negb].
  unfold ai_clean,
         AiComponentValidationRule.check_behavior,
         AiComponentValidationRule.check_radius,
         AiComponentValidationRule.check_radius_value,
         AiComponentValidationRule.check_patrol.
  split.
  - intros Hnil. apply app_eq_nil in Hnil as [Hb Hrest].
    apply app_eq_nil in Hrest as [Hr Hp]. split; [| split].
    + destruct (GetAttribute prim "sparkle:ai:behavior") as [a|]; [| discriminate].
      exists a. split; [reflexivity |]. intros b Hv. rewrite Hv in Hb.
      destruct (str_in b AiComponentValidationRule.allowed_behaviors) eqn:Hin;
        [apply ValidatorFacts.str_in_In; exact Hin | discriminate].
    + intros a v Ha Hv. rewrite Ha, Hv in Hr.
      destruct (PrimFloat.ltb v 0); [discriminate | reflexivity].
    + intros rel a p Hrel Ha Hv. rewrite Hrel, Ha, Hv in Hp.
      destruct (String.eqb_spec p "patrol"); [assumption | discriminate].
  - intros ((a & Ha & Hb) & Hr & Hp). rewrite Ha.
    assert (E1 : match Get_token a with
                 | Some behavior =>
                     if negb (str_in behavior AiComponentValidationRule.allowed_behaviors)
                     then [AiComponentValidationRule.behavior_value_issue prim behavior]
                     else []
                 | None => []
                 end = []).
    { destruct (Get_token a) as [b|]; [| reflexivity].
      rewrite (proj2 (ValidatorFacts.str_in_In _ _) (Hb b eq_refl)). reflexivity. }
    rewrite E1. cbn [app].
    apply BlockFacts.app_nil_both.
    + destruct (GetAttribute prim "sparkle:ai:detectionRadius") as [r|]; [| reflexivity].
      destruct (Get_float r) as [v|] eqn:Hv; [| reflexivity].
      rewrite (Hr r v eq_refl Hv). reflexivity.
    + destruct (GetRelationship prim "sparkle:ai:patrolPath") as [rel|]; [| reflexivity].
      destruct (GetAttribute prim "sparkle:movement:pattern") as [m|]; [| reflexivity].
      destruct (Get_token m) as [p|] eqn:Hv; [| reflexivity].
      rewrite (Hp rel m p eq_refl eq_refl Hv). reflexivity.
Qed.

Lemma ai_rule_passes_iff_witness :
  @AiComponentValidationRule.validate sample_format Samples.scene Samples.clean_hero = []
  /\ ai_clean Samples.clean_hero.
Proof.
  assert (Hc : ai_clean Samples.clean_hero).
  { split; [| split].
    - exists (Samples.token_attr "sparkle:ai:behavior" "passive").
      split; [reflexivity |]. intros b Hb. injection Hb as <-. simpl. auto.
    - intros r v Hr. discriminate Hr.
    - intros rel a p _ Ha Hp. injection Ha as <-. injection Hp as <-. reflexivity. }
  split; [| exact Hc].
  apply (@ai_rule_passes_iff sample_format Samples.scene Samples.clean_hero);
    [simpl; auto | exact Hc].
Defined.

(** X10: for a speed attribute with a readable value the speed check
    returns at most one issue: one ERROR for a value below zero, one
    WARNING and no ERROR for a value above one hundred, and nothing for
    a value that is neither. *)
Theorem speed_check_classifies `{PyFormat}
    (prim : UsdPrim) (speed_attr : UsdAttribute) (speed : float) :
  GetAttribute prim "sparkle:movement:speed" = Some speed_attr ->
  Get_float speed_attr = Some speed ->
  (PrimFloat.ltb speed 0 = true ->
     MovementComponentValidationRule.check_speed prim
     = [MovementComponentValidationRule.speed_negative_issue prim speed])
  /\ (PrimFloat.ltb 100 speed = true ->
        MovementComponentValidationRule.check_speed prim
        = [MovementComponentValidationRule.speed_excess_issue prim speed])
  /\ (PrimFloat.ltb speed 0 = false -> PrimFloat.ltb 100 speed = false ->
        MovementComponentValidationRule.check_speed prim = [])
  /\ severity (MovementComponentValidationRule.speed_negative_issue prim speed) = ERROR
  /\ severity (MovementComponentValidationRule.speed_excess_issue prim speed) = WARNING
  /\ length (MovementComponentValidationRule.check_speed prim) <= 1.
Proof.
  intros Ha Hv.
  unfold MovementComponentValidationRule.check_speed,
         MovementComponentValidationRule.check_speed_value.
  rewrite Ha, Hv.
  split; [| split; [| split; [| split; [| split]]]]; try reflexivity.
  - intros ->. reflexivity.
  - intros Hhi. rewrite (MoreFloatFacts.above_100_not_negative _ Hhi), Hhi.
    reflexivity.
  - intros -> ->. reflexivity.
  - destruct (PrimFloat.ltb speed 0); [simpl; lia |].
    destruct (PrimFloat.ltb 100 speed); simpl; lia.
Qed.

Lemma speed_check_classifies_witness :
  @MovementComponentValidationRule.validate sample_format Samples.scene Samples.fast_prim
  = [@MovementComponentValidationRule.speed_excess_issue sample_format
       Samples.fast_prim 150].
Proof.
  destruct (@speed_check_classifies sample_format Samples.fast_prim
              (Samples.float_attr "sparkle:movement:speed" 150) 150%float
              eq_refl eq_refl) as (_ & Hhi & _).
  unfold MovementComponentValidationRule.validate. cbn [negb].
  change (str_in "SparkleMovementAPI" (GetAppliedSchemas Samples.fast_prim)) with true.
  cbn [negb]. rewrite (Hhi eq_refl). reflexivity.
Defined.

(** X11: a value that is not a number passes every numeric check: the
    minimum check of the health rule, the speed check, the detection
    radius check, and the comparison of current and maximum health
    whichever of the two it is. *)
Theorem nan_passes_numeric_checks `{PyFormat}
    (prim : UsdPrim) (attr : UsdAttribute) (value : float) :
  Get_float attr = Some value ->
  is_nan value = true ->
  (forall attr_name req,
     HealthComponentValidationRule.check_min prim attr_name req attr = [])
  /\ MovementComponentValidationRule.check_speed_value prim attr = []
  /\ AiComponentValidationRule.check_radius_value prim attr = []
  /\ (forall other,
        GetAttribute prim "sparkle:health:current" = Some attr ->
        GetAttribute prim "sparkle:health:maximum" = Some other ->
        HealthComponentValidationRule.check_relationship prim = [])
  /\ (forall other,
        GetAttribute prim "sparkle:health:current" = Some other ->
        GetAttribute prim "sparkle:health:maximum" = Some attr ->
        HealthComponentValidationRule.check_relationship prim = []).
Proof.
  intros Hv Hnan.
  pose proof (fun y => proj1 (MoreFloatFacts.nan_compares_false value y Hnan)) as Hlt.
  pose proof (fun y => proj2 (MoreFloatFacts.nan_compares_false value y Hnan)) as Hgt.
  split; [| split; [| split; [| split]]].
  - intros attr_name req. unfold HealthComponentValidationRule.check_min.
    rewrite Hv. destruct (HealthComponentValidationRule.req_min req); [| reflexivity].
    rewrite Hlt. reflexivity.
  - unfold MovementComponentValidationRule.check_speed_value.
    rewrite Hv, Hlt, Hgt. reflexivity.
  - unfold AiComponentValidationRule.check_radius_value.
    rewrite Hv, Hlt. reflexivity.
  - intros other Hc Hm. unfold HealthComponentValidationRule.check_relationship.
    rewrite Hc, Hm, Hv. destruct (Get_float other); [| reflexivity].
    rewrite Hgt. reflexivity.
  - intros other Hc Hm. unfold HealthComponentValidationRule.check_relationship.
    rewrite Hc, Hm, Hv. destruct (Get_float other); [| reflexivity].
    rewrite Hlt. reflexivity.
Qed.

Lemma nan_passes_numeric_checks_witness :
  @HealthComponentValidationRule.validate sample_format Samples.scene Samples.nan_prim = []
  /\ @MovementComponentValidationRule.check_speed_value sample_format Samples.nan_prim
       (Samples.float_attr "sparkle:movement:speed" PrimFloat.nan) = []
  /\ @HealthComponentValidationRule.check_relationship sample_format Samples.nan_prim = [].
Proof.
  split; [reflexivity |].
  destruct (@nan_passes_numeric_checks sample_format Samples.nan_prim
              (Samples.float_attr "sparkle:movement:speed" PrimFloat.nan)
              PrimFloat.nan eq_refl eq_refl) as (_ & Hspeed & _).
  split; [exact Hspeed |].
  destruct (@nan_passes_numeric_checks sample_format Samples.nan_prim
              (Samples.float_attr "sparkle:health:current" PrimFloat.nan)
              PrimFloat.nan eq_refl eq_refl) as (_ & _ & _ & Hrel & _).
  apply (Hrel (Samples.float_attr "sparkle:health:maximum" 100)); reflexivity.
Defined.

(* ================================================================== *)
(** ** Further properties: entity types, performance, names            *)
(* ================================================================== *)

(** X12: for an enemy the entity-type rule returns one WARNING for
    each of the schemas health, combat and AI that is not applied, in
    this order, whatever else the prim is; for a prim that is a player
    and no enemy it does the same with health and movement.  With all
    its expected schemas applied the prim gets nothing. *)
Theorem entity_rule_lists_missing_schemas (stage : UsdStage) (prim : UsdPrim) :
  let missing := filter (fun schema => negb (str_in schema (GetAppliedSchemas prim))) in
  (IsA prim "SparkleEnemyCarrot" = true ->
     EntityTypeValidationRule.validate stage prim
     = map (EntityTypeValidationRule.missing_schema_issue prim "Enemy" "enemy")
           (missing ["SparkleHealthAPI"; "SparkleCombatAPI"; "SparkleAIAPI"]))
  /\ (IsA prim "SparkleEnemyCarrot" = false ->
      IsA prim "SparklePlayer" = true ->
        EntityTypeValidationRule.validate stage prim
        = map (EntityTypeValidationRule.missing_schema_issue prim "Player" "player")
              (missing ["SparkleHealthAPI"; "SparkleMovementAPI"]))
  /\ (forall kind lower schema,
        severity (EntityTypeValidationRule.missing_schema_issue prim kind lower schema)
        = WARNING)
  /\ (IsA prim "SparkleEnemyCarrot" = true ->
      In "SparkleHealthAPI" (GetAppliedSchemas prim) ->
      In "SparkleCombatAPI" (GetAppliedSchemas prim) ->
      In "SparkleAIAPI" (GetAppliedSchemas prim) ->
        EntityTypeValidationRule.validate stage prim = []).
Proof.
  intros missing. unfold EntityTypeValidationRule.validate.
  split; [| split; [| split]].
  - intros ->. apply BlockFacts.flat_map_filter.
  - intros -> ->. apply BlockFacts.flat_map_filter.
  - reflexivity.
  - intros -> Hh Hc Ha.
    unfold EntityTypeValidationRule._validate_enemy,
           EntityTypeValidationRule.check_expected.
    cbn [flat_map].
    rewrite (proj2 (ValidatorFacts.str_in_In _ _) Hh),
            (proj2 (ValidatorFacts.str_in_In _ _) Hc),
            (proj2 (ValidatorFacts.str_in_In _ _) Ha).
    reflexivity.
Qed.

Lemma entity_rule_lists_missing_schemas_witness :
  EntityTypeValidationRule.validate Samples.scene Samples.enemy_prim
  = [EntityTypeValidationRule.missing_schema_issue Samples.enemy_prim
       "Enemy" "enemy" "SparkleCombatAPI";
     EntityTypeValidationRule.missing_schema_issue Samples.enemy_prim
       "Enemy" "enemy" "SparkleAIAPI"].
Proof.
  destruct (entity_rule_lists_missing_schemas Samples.scene Samples.enemy_prim)
    as (Henemy & _).
  rewrite (Henemy eq_refl). reflexivity.
Defined.

(** X13: for a prim that is a pickup and neither an enemy nor a player
    the entity-type rule returns nothing when the attribute
    [sparkle:entity:id] exists, whatever it holds, and exactly one
    ERROR of rule [ENTITY_TYPE_001] when it does not. *)
Theorem pickup_needs_an_identifier (stage : UsdStage) (prim : UsdPrim) :
  IsA prim "SparkleEnemyCarrot" = false ->
  IsA prim "SparklePlayer" = false ->
  IsA prim "SparklePickup" = true ->
  (forall id_attr,
     GetAttribute prim "sparkle:entity:id" = Some id_attr ->
     EntityTypeValidationRule.validate stage prim = [])
  /\ (GetAttribute prim "sparkle:entity:id" = None ->
      exists issue,
        EntityTypeValidationRule.validate stage prim = [issue]
        /\ severity issue = ERROR
        /\ rule_id issue = "ENTITY_TYPE_001"
        /\ path issue = GetPath prim).
Proof.
  intros He Hp Hk. unfold EntityTypeValidationRule.validate.
  rewrite He, Hp, Hk. unfold EntityTypeValidationRule._validate_pickup.
  split.
  - intros a ->. reflexivity.
  - intros ->. eexists. split; [reflexivity |]. repeat split.
Qed.

Lemma pickup_needs_an_identifier_witness :
  EntityTypeValidationRule.validate Samples.scene Samples.pickup_with_id = []
  /\ length (EntityTypeValidationRule.validate Samples.scene Samples.pickup_prim) = 1.
Proof.
  split.
  - destruct (pickup_needs_an_identifier Samples.scene Samples.pickup_with_id
                eq_refl eq_refl eq_refl) as [Hsome _].
    apply (Hsome (Samples.token_attr "sparkle:entity:id" "gem_01")). reflexivity.
  - destruct (pickup_needs_an_identifier Samples.scene Samples.pickup_prim
                eq_refl eq_refl eq_refl) as [_ Hnone].
    destruct (Hnone eq_refl) as (issue & E & _). rewrite E. reflexivity.
Defined.

(** X14: the counting loop of the performance rule counts the
    attributes whose type is matrix4d or string; the rule returns
    nothing exactly when the prim has at most 10 applied schemas, at
    most 50 attributes and at most 10 such attributes; and it never
    returns more than three issues. *)
Theorem performance_rule_passes_iff (stage : UsdStage) (prim : UsdPrim) :
  PerformanceValidationRule.expensive_count (GetAttributes prim)
    = length (filter PerformanceValidationRule.is_expensive (GetAttributes prim))
  /\ (PerformanceValidationRule.validate stage prim = [] <->
        length (GetAppliedSchemas prim) <= 10
        /\ length (GetAttributes prim) <= 50
        /\ length (filter PerformanceValidationRule.is_expensive (GetAttributes prim)) <= 10)
  /\ length (PerformanceValidationRule.validate stage prim) <= 3.
Proof.
  assert (Hcount : forall attrs n,
             fold_left (fun n attr =>
                          if PerformanceValidationRule.is_expensive attr then n + 1 else n)
                       attrs n
             = n + length (filter PerformanceValidationRule.is_expensive attrs)).
  { induction attrs as [|a attrs IH]; intros n; simpl; [lia |].
    rewrite IH. destruct (PerformanceValidationRule.is_expensive a); simpl; lia. }
  assert (E : PerformanceValidationRule.expensive_count (GetAttributes prim)
              = length (filter PerformanceValidationRule.is_expensive (GetAttributes prim))).
  { unfold PerformanceValidationRule.expensive_count. rewrite Hcount. reflexivity. }
  split; [exact E |].
  unfold PerformanceValidationRule.validate. cbv zeta. rewrite E.
  destruct (Nat.ltb_spec 10 (length (GetAppliedSchemas prim)));
    destruct (Nat.ltb_spec 50 (length (GetAttributes prim)));
    destruct (Nat.ltb_spec 10
                (length (filter PerformanceValidationRule.is_expensive
                           (GetAttributes prim))));
    cbn [app length];
    (split; [split; [intros Hx; try discriminate Hx; lia | intros Hx; try reflexivity; lia]
            | lia]).
Qed.

(** X15: for every attribute, whatever its name, the namespace rule
    raises its issue exactly when the name starts with [sparkle:] and
    is neither a name that follows the convention nor such a name
    followed by one line break. *)
Theorem namespace_check_is_exact (prim : UsdPrim) (attr : UsdAttribute) :
  let name := GetName attr in
  let accepted :=
    follows_convention name
    \/ exists t, name = t ++ String "010" "" /\ follows_convention t in
  (NamespaceValidationRule.check_attr prim attr
     = [NamespaceValidationRule.issue_for prim name]
   <-> String.prefix "sparkle:" name = true /\ ~ accepted)
  /\ (NamespaceValidationRule.check_attr prim attr = []
      <-> String.prefix "sparkle:" name = false \/ accepted).
Proof.
  intros name accepted. unfold NamespaceValidationRule.check_attr. fold name.
  pose proof (NamespaceFacts.namespace_pattern_match_full name) as Hm.
  fold accepted in Hm.
  destruct (String.prefix "sparkle:" name); cbn [negb].
  - destruct (NamespaceValidationRule.namespace_pattern_match name); cbn [negb].
    + assert (Ha : accepted) by (apply Hm; reflexivity).
      split; split; try discriminate; auto. intros [_ Hn]. contradiction.
    + assert (Hn : ~ accepted) by (intros Ha; apply Hm in Ha; discriminate).
      split; split; auto; try discriminate.
      intros [Hx | Hx]; [discriminate | contradiction].
  - split; split; auto; try discriminate. intros [Hx _]. discriminate.
Qed.

(** X16: the rule set agrees with itself: a prim whose [sparkle:]
    attributes are among those the health, movement, AI and entity-type
    rules look up gets nothing from the namespace rule. *)
Theorem consulted_names_pass_namespace_rule (stage : UsdStage) (prim : UsdPrim) :
  Forall (fun a => String.prefix "sparkle:" (GetName a) = true ->
                   In (GetName a) consulted_names)
         (GetAttributes prim) ->
  NamespaceValidationRule.validate stage prim = [].
Proof.
  intros Hall. unfold NamespaceValidationRule.validate.
  apply flat_map_all_nil. eapply Forall_impl; [| exact Hall].
  intros a Ha. cbv beta in Ha. unfold NamespaceValidationRule.check_attr.
  destruct (String.prefix "sparkle:" (GetName a)) eqn:Hp; [| reflexivity].
  specialize (Ha eq_refl). cbn [negb].
  unfold consulted_names in Ha. simpl in Ha.
  destruct Ha as [E | [E | [E | [E | [E | [E | [E | []]]]]]]];
    rewrite <- E; reflexivity.
Qed.

Lemma consulted_names_pass_namespace_rule_witness :
  NamespaceValidationRule.validate Samples.scene Samples.zero_prim = [].
Proof.
  apply (consulted_names_pass_namespace_rule Samples.scene Samples.zero_prim).
  repeat constructor; intros _; simpl; tauto.
Defined.

(* ================================================================== *)
(** ** Further properties: what the entry point prints and writes      *)
(* ================================================================== *)



(** X18: a run that validates and writes no report prints the summary
    followed by one rendering per selected issue, in the order of the
    issue list: with [--errors-only] one per ERROR, as many as the
    summary's error count, and otherwise one per issue.  With
    [--errors-only] the summary stands alone exactly when the exit code
    is zero. *)
Theorem main_output_lines `{PyFormat} (env : Env) (args : Args) (stage : UsdStage) :
  path_exists env (usd_file args) = true ->
  Stage_Open env (usd_file args) = Some stage ->
  report_arg args = None ->
  let v1 := fst (SchemaValidator.validate_stage stage SchemaValidator.__init__) in
  (errors_only args = true ->
     stdout (main env args)
     = (SchemaValidator.get_summary v1
        :: map Issue.__str__ (issues_of ERROR (SchemaValidator.all_issues v1)))%list
     /\ length (stdout (main env args))
        = 1 + Counts.get (SchemaValidator.issue_counts v1) ERROR
     /\ (exit_code (main env args) = 0
         <-> stdout (main env args) = [SchemaValidator.get_summary v1]))
  /\ (errors_only args = false ->
        stdout (main env args)
        = (SchemaValidator.get_summary v1
           :: map Issue.__str__ (SchemaValidator.all_issues v1))%list
        /\ length (stdout (main env args))
           = 1 + length (SchemaValidator.all_issues v1)).
Proof.
  intros He Ho Hr v1.
  assert (Hcode : exit_code (main env args)
                  = if SchemaValidator.has_errors v1 then 1 else 0).
  { unfold exit_code.
    rewrite (main_validated_exit_code env args stage He Ho); [reflexivity |].
    intros c p E. rewrite Hr in E. discriminate E. }
  assert (Hout : stdout (main env args)
                 = (SchemaValidator.get_summary v1
                    :: SchemaValidator.print_issues v1
                         (if errors_only args then Some ERROR else None))%list).
  { unfold main. rewrite He, Ho, Hr. reflexivity. }
  pose proof (ValidatorFacts.validate_stage_consistent stage
                (@SchemaValidator.__init__ H) ERROR) as Hc.
  fold v1 in Hc. unfold count_severity in Hc.
  split.
  - intros Hflag. rewrite Hflag in Hout.
    assert (Hsel : SchemaValidator.print_issues v1 (Some ERROR)
                   = map Issue.__str__ (issues_of ERROR (SchemaValidator.all_issues v1)))
      by reflexivity.
    rewrite Hsel in Hout. rewrite Hout, Hcode.
    split; [reflexivity |]. split.
    + cbn [length]. rewrite length_map. unfold issues_of. rewrite <- Hc. reflexivity.
    + unfold SchemaValidator.has_errors. rewrite Hc.
      unfold issues_of.
      destruct (filter _ (SchemaValidator.all_issues v1)) as [|i l]; simpl.
      * split; reflexivity.
      * split; discriminate.
  - intros Hflag. rewrite Hflag in Hout.
    assert (Hsel : SchemaValidator.print_issues v1 None
                   = map Issue.__str__ (SchemaValidator.all_issues v1)).
    { assert (Hall : forall l : list ValidationIssue,
                 filter (fun _ => true) l = l).
      { induction l as [|i l IH]; simpl; [| rewrite IH]; reflexivity. }
      unfold SchemaValidator.print_issues, SchemaValidator.selected_issues.
      rewrite Hall. reflexivity. }
    rewrite Hsel in Hout. rewrite Hout.
    split; [reflexivity |]. cbn [length]. rewrite length_map. reflexivity.
Qed.

Lemma main_output_lines_witness :
  stdout (@main sample_format Samples.env
            {| usd_file := "scene.usda"; report_arg := None; errors_only := true |})
  = (SchemaValidator.get_summary
       (fst (SchemaValidator.validate_stage Samples.scene
               (@SchemaValidator.__init__ sample_format)))
     :: map Issue.__str__
          (issues_of ERROR
             (SchemaValidator.all_issues
                (fst (SchemaValidator.validate_stage Samples.scene
                        (@SchemaValidator.__init__ sample_format))))))%list.
Proof.
  destruct (@main_output_lines sample_format Samples.env
              {| usd_file := "scene.usda"; report_arg := None; errors_only := true |}
              Samples.scene eq_refl eq_refl eq_refl) as [Honly _].
  destruct (Honly eq_refl) as [E _]. exact E.
Defined.

(* ================================================================== *)
(** ** Further properties: missing attributes                          *)
(* ================================================================== *)

(** X19: a missing health attribute is reported once and nothing else
    is checked about it: with both attributes missing the health rule
    returns exactly the two "missing" ERRORs, current first; with only
    one missing it returns that ERROR and the type and minimum findings
    of the other; in both cases current and maximum are not compared. *)
Theorem health_rule_on_missing_attributes `{PyFormat}
    (stage : UsdStage) (prim : UsdPrim) :
  In "SparkleHealthAPI" (GetAppliedSchemas prim) ->
  let req := {| HealthComponentValidationRule.req_type := ValueTypeNames.Float;
                HealthComponentValidationRule.req_min := Some 0%float |} in
  (GetAttribute prim "sparkle:health:current" = None ->
   GetAttribute prim "sparkle:health:maximum" = None ->
     HealthComponentValidationRule.validate stage prim
     = [HealthComponentValidationRule.missing_issue prim "sparkle:health:current";
        HealthComponentValidationRule.missing_issue prim "sparkle:health:maximum"])
  /\ (forall max_health,
        GetAttribute prim "sparkle:health:current" = None ->
        GetAttribute prim "sparkle:health:maximum" = Some max_health ->
        HealthComponentValidationRule.validate stage prim
        = (HealthComponentValidationRule.missing_issue prim "sparkle:health:current"
           :: HealthComponentValidationRule.check_type prim "sparkle:health:maximum"
                req max_health
           ++ HealthComponentValidationRule.check_min prim "sparkle:health:maximum"
                req max_health)%list)
  /\ (forall current_health,
        GetAttribute prim "sparkle:health:current" = Some current_health ->
        GetAttribute prim "sparkle:health:maximum" = None ->
        HealthComponentValidationRule.validate stage prim
        = ((HealthComponentValidationRule.check_type prim "sparkle:health:current"
              req current_health
            ++ HealthComponentValidationRule.check_min prim "sparkle:health:current"
                 req current_health)
           ++ [HealthComponentValidationRule.missing_issue prim
                 "sparkle:health:maximum"])%list)
  /\ (forall name,
        severity (HealthComponentValidationRule.missing_issue prim name) = ERROR).
Proof.
  intros Hs req. apply ValidatorFacts.str_in_In in Hs.
  unfold HealthComponentValidationRule.validate. rewrite Hs.
  unfold HealthComponentValidationRule.required_attrs,
         HealthComponentValidationRule.check_relationship.
  cbn [negb flat_map HealthComponentValidationRule.check_required].
  split; [| split; [| split]].
  - intros -> ->. reflexivity.
  - intros m -> ->. cbn [app]. rewrite !app_nil_r. reflexivity.
  - intros c -> ->. rewrite !app_nil_r. reflexivity.
  - reflexivity.
Qed.

Lemma health_rule_on_missing_attributes_witness :
  @HealthComponentValidationRule.validate sample_format Samples.class_scene
     Samples.class_prim
  = [HealthComponentValidationRule.missing_issue Samples.class_prim
       "sparkle:health:current";
     HealthComponentValidationRule.missing_issue Samples.class_prim
       "sparkle:health:maximum"].
Proof.
  destruct (@health_rule_on_missing_attributes sample_format
              Samples.class_scene Samples.class_prim) as [Hboth _];
    [simpl; auto |].
  apply Hboth; reflexivity.
Defined.

Lemma issues_name_their_rule_and_prim_witness :
  exists prim rule,
    In prim (Traverse Samples.warning_scene)
    /\ IsValid prim = true /\ IsAbstract prim = false
    /\ In rule (SchemaValidator.rules (@SchemaValidator.__init__ sample_format))
    /\ In (AiComponentValidationRule.patrol_issue Samples.wandering_guard "wander")
          (rule_validate rule Samples.warning_scene prim)
    /\ stamped rule prim
         (AiComponentValidationRule.patrol_issue Samples.wandering_guard "wander").
Proof.
  destruct (@issues_name_their_rule_and_prim sample_format Samples.warning_scene)
    as [_ Hall].
  apply Hall. left. reflexivity.
Defined.
